(** * NEMS prediction-quality metrics: [nems/metrics/corrcoef.py]

    A shallow embedding of the four estimators of the module
    ([corrcoef], [r_floor], [_r_single], [r_ceiling]) and the properties
    established about them.

    Conventions of the embedding:
    - a [np.float64] (and a Python [float]) is an IEEE-754 binary64 value,
      written with the Standard Library's [spec_float] at precision 53;
    - a Python exception is a value of [exn]; a computation that can raise
      returns an [outcome];
    - the process-wide random generator is the stream [uniform] of the
      variates it hands out, the state being the number already drawn;
    - [np.corrcoef] and [np.mean] are routines of NumPy, whose reduction
      order is not fixed by the source: the estimators are parameterised
      by them, and a reference version of each is given for evaluation. *)

From Stdlib Require Import String ZArith List Bool Lia Permutation Sorted.
From Stdlib Require Import Floats.SpecFloat.
Import ListNotations.

(* ------------------------------------------------------------------ *)
(** ** Binary64 numbers *)

(** A [np.float64]. *)
Definition float : Type := spec_float.

Module F64.

Definition prec : Z := 53.
Definition emax : Z := 1024.

Definition add : float -> float -> float := SFadd prec emax.
Definition sub : float -> float -> float := SFsub prec emax.
Definition mul : float -> float -> float := SFmul prec emax.
Definition div : float -> float -> float := SFdiv prec emax.
Definition sqrt : float -> float := SFsqrt prec emax.
Definition ltb : float -> float -> bool := SFltb.
Definition leb : float -> float -> bool := SFleb.

Definition nan : float := S754_nan.
Definition zero : float := S754_zero false.

(** [float(z)] for a Python integer. *)
Definition of_Z (z : Z) : float := binary_normalize prec emax z 0 false.
Definition of_nat (n : nat) : float := of_Z (Z.of_nat n).

(** [np.isfinite] on one element. *)
Definition is_finite (x : float) : bool :=
  match x with
  | S754_zero _ | S754_finite _ _ _ => true
  | S754_infinity _ | S754_nan => false
  end.

Definition is_nan (x : float) : bool :=
  match x with S754_nan => true | _ => false end.

(** [int(x)]: truncation toward zero; undefined on NaN and infinities. *)
Definition trunc (x : float) : option Z :=
  match x with
  | S754_zero _ => Some 0%Z
  | S754_finite s m e =>
      let a := match e with
               | Zneg p => Z.shiftr (Zpos m) (Zpos p)
               | _ => Z.shiftl (Zpos m) e
               end in
      Some (if s then Z.opp a else a)
  | _ => None
  end.

(** The literals of the source. *)
Definition c0_05 : float := Eval vm_compute in div (of_Z 5) (of_Z 100).
Definition c0_95 : float := Eval vm_compute in div (of_Z 95) (of_Z 100).
Definition one : float := Eval vm_compute in of_Z 1.

End F64.

(* ------------------------------------------------------------------ *)
(** ** Python values, exceptions and results *)

(** The scalars the estimators return or accumulate.  A Python [int], a
    Python [float] and a [np.float64] divide differently by zero, so the
    three are kept apart. *)
Inductive pyval : Type :=
| PyInt (z : Z)
| PyFloat (x : float)
| NpFloat (x : float).

Inductive exn : Type :=
| ValueError (msg : string)
| IndexError
| KeyError (key : string)
| NameError (name : string)
| ZeroDivisionError.

Inductive outcome (A : Type) : Type :=
| Return (a : A)
| Raise (e : exn).
Arguments Return {A} a.
Arguments Raise {A} e.

Definition bind {A B} (r : outcome A) (k : A -> outcome B) : outcome B :=
  match r with
  | Return a => k a
  | Raise e => Raise e
  end.

Notation "x <- r ;; k" := (bind r (fun x => k))
  (at level 61, r at next level, right associativity).

(** A [for] loop whose body may raise: the state is threaded, the first
    exception ends the loop. *)
Fixpoint for_each {A S} (body : S -> A -> outcome S) (l : list A) (s : S)
  : outcome S :=
  match l with
  | [] => Return s
  | a :: l' => s' <- body s a ;; for_each body l' s'
  end.

(** The numeric value of a scalar, as [float(v)]. *)
Definition to_float (v : pyval) : float :=
  match v with
  | PyInt z => F64.of_Z z
  | PyFloat x | NpFloat x => x
  end.

Definition multi_channel_msg : string :=
  "multi-channel signals not supported yet."%string.
Definition two_repeats_msg : string :=
  "2 repeats condition not supported yet."%string.
Definition broadcast_msg : string :=
  "operands could not be broadcast together"%string.
Definition negative_dim_msg : string :=
  "negative dimensions are not allowed"%string.

(* ------------------------------------------------------------------ *)
(** ** NumPy arrays *)

(** One-dimensional arrays are lists.  Two- and three-dimensional arrays
    carry their shape, so that an array with an empty axis still has one. *)
Record array2 (A : Type) : Type := {
  nrows : nat;
  ncols : nat;
  get2 : nat -> nat -> A
}.
Arguments nrows {A} _.
Arguments ncols {A} _.
Arguments get2 {A} _ _ _.

Record array3 (A : Type) : Type := {
  dim0 : nat;
  dim1 : nat;
  dim2 : nat;
  get3 : nat -> nat -> nat -> A
}.
Arguments dim0 {A} _.
Arguments dim1 {A} _.
Arguments dim2 {A} _.
Arguments get3 {A} _ _ _ _.

Definition ndarray2 := array2 float.
Definition ndarray3 := array3 float.

(** A single-channel signal of the given samples, shape [(1, T)]. *)
Definition of_row (l : list float) : ndarray2 :=
  {| nrows := 1; ncols := length l; get2 := fun _ j => nth j l F64.nan |}.

(** An array given by its rows, every row [c] long. *)
Definition of_rows (c : nat) (ls : list (list float)) : ndarray2 :=
  {| nrows := length ls; ncols := c;
     get2 := fun i j => nth j (nth i ls []) F64.nan |}.

(** A raster given by its repeats (one channel), shape [(R, 1, T)]. *)
Definition of_repeats (t : nat) (ls : list (list float)) : ndarray3 :=
  {| dim0 := length ls; dim1 := 1; dim2 := t;
     get3 := fun i _ k => nth k (nth i ls []) F64.nan |}.

Definition map2 {A B} (f : A -> B) (a : array2 A) : array2 B :=
  {| nrows := nrows a; ncols := ncols a; get2 := fun i j => f (get2 a i j) |}.

(** The cells of an [r] by [c] array in row-major order. *)
Definition cells (r c : nat) : list (nat * nat) :=
  flat_map (fun i => map (fun j => (i, j)) (seq 0 c)) (seq 0 r).

(** NumPy's broadcasting of one axis. *)
Definition broadcast_dim (a b : nat) : option nat :=
  if a =? b then Some a
  else if a =? 1 then Some b
  else if b =? 1 then Some a
  else None.

Definition bidx (d i : nat) : nat := if d =? 1 then 0 else i.

(** [p & q] on boolean arrays. *)
Definition logical_and2 (p q : array2 bool) : outcome (array2 bool) :=
  match broadcast_dim (nrows p) (nrows q), broadcast_dim (ncols p) (ncols q) with
  | Some r, Some c =>
      Return {| nrows := r; ncols := c;
                get2 := fun i j =>
                  get2 p (bidx (nrows p) i) (bidx (ncols p) j)
                  && get2 q (bidx (nrows q) i) (bidx (ncols q) j) |}
  | _, _ => Raise (ValueError broadcast_msg)
  end.

(** [np.sum] of a boolean array: the number of [True] cells. *)
Definition np_sum2 (m : array2 bool) : nat :=
  length (filter (fun c => get2 m (fst c) (snd c)) (cells (nrows m) (ncols m))).

(** [a[m]] for a boolean array [m]: the selected cells in row-major order;
    the mask must have the shape of the array. *)
Definition bool_index2 (a : ndarray2) (m : array2 bool) : outcome (list float) :=
  if (nrows a =? nrows m) && (ncols a =? ncols m) then
    Return (map (fun c => get2 a (fst c) (snd c))
              (filter (fun c => get2 m (fst c) (snd c))
                 (cells (nrows m) (ncols m))))
  else Raise IndexError.

(** The same operations on one-dimensional arrays. *)
Fixpoint zip_with {A B C} (f : A -> B -> C) (l : list A) (l' : list B)
  : list C :=
  match l, l' with
  | a :: t, b :: t' => f a b :: zip_with f t t'
  | _, _ => []
  end.

Definition logical_and1 (p q : list bool) : outcome (list bool) :=
  if length p =? length q then Return (zip_with andb p q)
  else if length p =? 1 then Return (map (andb (hd false p)) q)
  else if length q =? 1 then Return (map (fun b => b && hd false q) p)
  else Raise (ValueError broadcast_msg).

Fixpoint select {A} (l : list A) (m : list bool) : list A :=
  match l, m with
  | a :: t, b :: m' => if b then a :: select t m' else select t m'
  | _, _ => []
  end.

Definition bool_index1 (a : list float) (m : list bool) : outcome (list float) :=
  if length a =? length m then Return (select a m) else Raise IndexError.

(** [X[i, j, :]]. *)
Definition slice3 (X : ndarray3) (i j : nat) : outcome (list float) :=
  if (i <? dim0 X) && (j <? dim1 X) then
    Return (map (get3 X i j) (seq 0 (dim2 X)))
  else Raise IndexError.

(** [np.sum(np.isfinite(d))] for a three-dimensional array. *)
Definition count_finite3 (d : ndarray3) : nat :=
  list_sum
    (map (fun i =>
       list_sum
         (map (fun j =>
            length (filter F64.is_finite (map (get3 d i j) (seq 0 (dim2 d)))))
            (seq 0 (dim1 d))))
       (seq 0 (dim0 d))).

(** [np.zeros(n)] and the assignment [a[i] = v] of an index in range. *)
Definition np_zeros (n : nat) : list float := repeat F64.zero n.

Fixpoint set_item (a : list float) (i : nat) (v : float) : list float :=
  match a, i with
  | [], _ => []
  | _ :: t, O => v :: t
  | x :: t, S i' => x :: set_item t i' v
  end.

(** [l[i]] on a Python list or a one-dimensional array, for [i >= 0]. *)
Definition get_item {A} (l : list A) (i : nat) : outcome A :=
  match nth_error l i with
  | Some a => Return a
  | None => Raise IndexError
  end.

(** [a[idx]] for an integer index array: a negative index counts from the
    end, an index outside [-len, len) raises. *)
Definition get_item_Z {A} (l : list A) (i : Z) : outcome A :=
  let n := Z.of_nat (length l) in
  if (0 <=? i)%Z && (i <? n)%Z then get_item l (Z.to_nat i)
  else if (- n <=? i)%Z && (i <? 0)%Z then get_item l (Z.to_nat (n + i))
  else Raise IndexError.

Fixpoint take {A} (l : list A) (idx : list Z) : outcome (list A) :=
  match idx with
  | [] => Return []
  | i :: idx' => a <- get_item_Z l i ;; t <- take l idx' ;; Return (a :: t)
  end.

(** [x.astype(int)] on one element: truncation toward zero; what does not
    fit a 64-bit integer (NaN and the infinities included) becomes the
    smallest one. *)
Definition astype_int (x : float) : Z :=
  match F64.trunc x with
  | Some z =>
      if (- 2 ^ 63 <=? z)%Z && (z <? 2 ^ 63)%Z then z else (- 2 ^ 63)%Z
  | None => (- 2 ^ 63)%Z
  end.

(** [np.int(x)] on a float: Python's [int], which raises on NaN and on
    the infinities. *)
Definition np_int (x : float) : outcome Z :=
  match F64.trunc x with
  | Some z => Return z
  | None => Raise (ValueError "cannot convert float to integer"%string)
  end.

(** [np.sort] of a one-dimensional array, ascending. *)
Fixpoint insert_sorted (x : float) (l : list float) : list float :=
  match l with
  | [] => [x]
  | y :: t => if F64.leb x y then x :: l else y :: insert_sorted x t
  end.

Definition np_sort (l : list float) : list float :=
  fold_right insert_sorted [] l.

(** [np.argsort]: the indices that sort the array, equal keys kept in
    their order of position. *)
Fixpoint insert_index (key : nat -> float) (i : nat) (l : list nat)
  : list nat :=
  match l with
  | [] => [i]
  | j :: t =>
      if F64.ltb (key i) (key j) then i :: l else j :: insert_index key i t
  end.

Definition np_argsort (v : list float) : list nat :=
  fold_left (fun acc i => insert_index (fun k => nth k v F64.nan) i acc)
    (seq 0 (length v)) [].

(** [np.int(scipy.special.comb(n, 2))]: the number of unordered pairs. *)
Definition comb2 (n : nat) : nat := n * (n - 1) / 2.

(* ------------------------------------------------------------------ *)
(** ** Arithmetic on Python scalars *)

(** [a + b], as used by [rnorm_c += ...]: the accumulator starts as the
    Python integer [0] and becomes a [np.float64] at the first addition. *)
Definition py_add (a b : pyval) : pyval :=
  match a, b with
  | PyInt x, PyInt y => PyInt (x + y)
  | PyInt x, PyFloat y => PyFloat (F64.add (F64.of_Z x) y)
  | PyFloat x, PyInt y => PyFloat (F64.add x (F64.of_Z y))
  | PyFloat x, PyFloat y => PyFloat (F64.add x y)
  | _, _ => NpFloat (F64.add (to_float a) (to_float b))
  end.

(** [a / n] for a Python integer [n]: Python's own numbers raise on a zero
    divisor, a [np.float64] follows IEEE-754 (NaN or an infinity, with a
    warning only). *)
Definition py_div (a : pyval) (n : Z) : outcome pyval :=
  match a with
  | NpFloat x => Return (NpFloat (F64.div x (F64.of_Z n)))
  | _ =>
      if (n =? 0)%Z then Raise ZeroDivisionError
      else Return (PyFloat (F64.div (to_float a) (F64.of_Z n)))
  end.

(** [v > 0]. *)
Definition py_gt0 (v : pyval) : bool :=
  match v with
  | PyInt z => (0 <? z)%Z
  | PyFloat x | NpFloat x => F64.ltb F64.zero x
  end.

(* ------------------------------------------------------------------ *)
(** ** Recordings, signals and epochs *)

(** Modelled from the spec: the Signal, Recording and epoch collaborators
    ([nems.signal], [nems.recording], [nems.epoch]) are not among the
    sources; section 6 of the specification gives their interface.  A
    signal exposes its dense array, the names of its epochs and, per
    name, the raster of that epoch (repeats x channels x time). *)
Record signal : Type := {
  as_continuous : ndarray2;
  epochs : list string;
  extract_epoch : string -> ndarray3
}.

Definition recording : Type := string -> option signal.

(** [rec[name]]. *)
Definition getitem (r : recording) (name : string) : outcome signal :=
  match r name with
  | Some s => Return s
  | None => Raise (KeyError name)
  end.

(** Modelled from the spec: [ep.epoch_names_matching] with a pattern
    [^prefix], the distinct names that start with the prefix. *)
Definition epoch_names_matching (names : list string) (prefix : string)
  : list string :=
  nodup string_dec (filter (String.prefix prefix) names).

(** Modelled from the spec: [extract_epochs], one folded array per name. *)
Definition extract_epochs (s : signal) (names : list string)
  : list (string * ndarray3) :=
  map (fun k => (k, extract_epoch s k)) names.

(** Modelled from the spec: [rasterize], the repeat-resolved form of the
    signal; the rasters are what [extract_epoch] returns. *)
Definition rasterize (s : signal) : signal := s.

(** A recording holding a prediction and a response under their default
    names. *)
Definition mk_recording (pred resp : signal) : recording :=
  fun name =>
    if String.eqb name "pred" then Some pred
    else if String.eqb name "resp" then Some resp
    else None.

Definition continuous_signal (a : ndarray2) : signal :=
  {| as_continuous := a; epochs := [];
     extract_epoch := fun _ => {| dim0 := 0; dim1 := 1; dim2 := 0;
                                  get3 := fun _ _ _ => F64.nan |} |}.

(* ------------------------------------------------------------------ *)
(** ** Reference versions of the NumPy reductions *)

Module NumpyRef.

Definition np_sum (l : list float) : float := fold_left F64.add l F64.zero.

(** [np.mean]: the sum over the count; NaN on an empty array. *)
Definition np_mean (l : list float) : float :=
  F64.div (np_sum l) (F64.of_nat (length l)).

Definition dot (a b : list float) : float :=
  np_sum (zip_with F64.mul a b).

Definition clip (x : float) : float :=
  let m1 := F64.of_Z (-1) in
  if F64.ltb x m1 then m1 else if F64.ltb F64.one x then F64.one else x.

(** [np.corrcoef(x, y)[0, 1]]: the covariance matrix with [ddof = 1],
    divided by the row's then by the column's standard deviation, and
    clipped to [-1, 1]. *)
Definition np_corrcoef (x y : list float) : float :=
  let ax := np_mean x in
  let ay := np_mean y in
  let dx := map (fun v => F64.sub v ax) x in
  let dy := map (fun v => F64.sub v ay) y in
  let fact :=
    if (Z.of_nat (length x) - 1 <=? 0)%Z then F64.zero
    else F64.of_Z (Z.of_nat (length x) - 1) in
  let k := F64.div F64.one fact in
  let cxx := F64.mul (dot dx dx) k in
  let cxy := F64.mul (dot dx dy) k in
  let cyy := F64.mul (dot dy dy) k in
  clip (F64.div (F64.div cxy (F64.sqrt cxx)) (F64.sqrt cyy)).

End NumpyRef.

(* ------------------------------------------------------------------ *)
(** ** Computations that draw from the random generator *)

(** The state is the number of variates drawn so far. *)
Definition M (A : Type) : Type := nat -> outcome A * nat.

Definition ret {A} (a : A) : M A := fun s => (Return a, s).
Definition raise {A} (e : exn) : M A := fun s => (Raise e, s).
Definition lift {A} (r : outcome A) : M A := fun s => (r, s).

Definition bindM {A B} (m : M A) (k : A -> M B) : M B :=
  fun s =>
    match m s with
    | (Return a, s') => k a s'
    | (Raise e, s') => (Raise e, s')
    end.

Notation "x <~ m ;; k" := (bindM m (fun x => k))
  (at level 61, m at next level, right associativity).

Fixpoint for_eachM {A S} (body : S -> A -> M S) (l : list A) (st : S) : M S :=
  match l with
  | [] => ret st
  | a :: l' => st' <~ body st a ;; for_eachM body l' st'
  end.

(* ------------------------------------------------------------------ *)
(** ** The estimators *)

Section Estimators.

(** [np.corrcoef(x, y)[0, 1]] and [np.mean]. *)
Variable np_corrcoef : list float -> list float -> float.
Variable np_mean : list float -> float.

(** The variates of the process-wide generator, in the order drawn. *)
Variable uniform : nat -> float.

(** [np.random.rand(n)]. *)
Definition np_random_rand (n : nat) : M (list float) :=
  fun s => (Return (map uniform (seq s n)), s + n).

(** *** corrcoef *)

Definition corrcoef (result : recording) (pred_name resp_name : string)
  : outcome pyval :=
  p <- getitem result pred_name ;;
  let pred := as_continuous p in
  r <- getitem result resp_name ;;
  let resp := as_continuous r in
  if 1 <? nrows pred then Raise (ValueError multi_channel_msg)
  else
    ff <- logical_and2 (map2 F64.is_finite pred) (map2 F64.is_finite resp) ;;
    if np_sum2 ff =? 0 then Return (PyInt 0)
    else
      a <- bool_index2 pred ff ;;
      b <- bool_index2 resp ff ;;
      Return (NpFloat (np_corrcoef a b)).

(** *** r_floor *)

(** [(np.random.rand(n) * len).astype(int)]. *)
Definition random_indices (n len : nat) : M (list Z) :=
  u <~ np_random_rand n ;;
  ret (map (fun x => astype_int (F64.mul x (F64.of_nat len))) u).

(** One pass of the shuffle loop: [rf[rr] = corr of two resamples]. *)
Definition floor_body (X1 X2 : list float) (n : nat)
    (rf : list float) (rr : nat) : M (list float) :=
  n1 <~ random_indices n (length X1) ;;
  n2 <~ random_indices n (length X2) ;;
  a <~ lift (take X1 n1) ;;
  b <~ lift (take X2 n2) ;;
  ret (set_item rf rr (np_corrcoef a b)).

Definition r_floor (result : recording) (pred_name resp_name : string)
  : M pyval :=
  p <~ lift (getitem result pred_name) ;;
  let X1 := as_continuous p in
  r <~ lift (getitem result resp_name) ;;
  let X2 := as_continuous r in
  if 1 <? nrows X1 then raise (ValueError multi_channel_msg)
  else
    ff <~ lift (logical_and2 (map2 F64.is_finite X1)
                             (map2 F64.is_finite X2)) ;;
    X1 <~ lift (bool_index2 X1 ff) ;;
    X2 <~ lift (bool_index2 X2 ff) ;;
    let n := if 500 <? length X1 then 500 else length X1 in
    let rf := np_zeros 1000 in
    rf <~ for_eachM (floor_body X1 X2 n) (seq 0 (length rf)) rf ;;
    let rf := np_sort (filter F64.is_finite rf) in
    if 0 <? length rf then
      i <~ lift (np_int (F64.mul (F64.of_nat (length rf)) F64.c0_95)) ;;
      v <~ lift (get_item_Z rf i) ;;
      ret (NpFloat v)
    else ret (PyInt 0).

(** *** _r_single *)

(** The pairs [p1 < p2] of repeat indices, in the order of the two
    nested loops. *)
Definition all_pairs (repcount : nat) : list (nat * nat) :=
  flat_map (fun p1 => map (fun p2 => (p1, p2))
                        (seq (p1 + 1) (repcount - (p1 + 1))))
    (seq 0 repcount).

(** The two time series of a pair after the joint finite mask. *)
Definition masked_pair (X1 X2 : list float)
  : outcome (list float * list float) :=
  ff <- logical_and1 (map F64.is_finite X1) (map F64.is_finite X2) ;;
  a <- bool_index1 X1 ff ;;
  b <- bool_index1 X2 ff ;;
  Return (a, b).

(** One pass of the pair loop: [rac[nn] = corr of the nn-th pair]. *)
Definition single_body (X : ndarray3) (pairs : list (nat * nat))
    (sidx : list nat) (rac : list float) (nn : nat) : outcome (list float) :=
  i <- get_item sidx nn ;;
  pr <- get_item pairs i ;;
  X1 <- slice3 X (fst pr) 0 ;;
  j <- get_item sidx nn ;;
  pr' <- get_item pairs j ;;
  X2 <- slice3 X (snd pr') 0 ;;
  m <- masked_pair X1 X2 ;;
  Return (set_item rac nn (np_corrcoef (fst m) (snd m))).

Definition _r_single (X : ndarray3) (N : Z) : M pyval :=
  if 1 <? dim1 X then raise (ValueError multi_channel_msg)
  else
    let repcount := dim0 X in
    if repcount <=? 1 then ret (PyInt 0)
    else
      let paircount := comb2 repcount in
      let pairs := all_pairs repcount in
      let N := if (Z.of_nat paircount <? N)%Z then Z.of_nat paircount
               else N in
      if (N =? 1)%Z then raise (ValueError two_repeats_msg)
      else if (N <? 0)%Z then raise (ValueError negative_dim_msg)
      else
        let rac := np_zeros (Z.to_nat N) in
        u <~ np_random_rand paircount ;;
        let sidx := np_argsort u in
        rac <~ lift (for_each (single_body X pairs sidx)
                       (seq 0 (Z.to_nat N)) rac) ;;
        let rac := np_mean rac in
        if F64.ltb rac F64.c0_05 then ret (PyFloat F64.c0_05)
        else ret (NpFloat rac).

(** *** r_ceiling *)

(** The locals that live across the epochs: the weighted sum, the
    sample total, and [X1], which the last pass of the repeat loop
    leaves bound. *)
Record ceiling_state : Type := {
  rnorm_c : pyval;
  n_total : Z;
  X1_local : option (list float)
}.

(** One pass of the repeat loop: [rs[nn] = corr of repeat nn with the
    prediction], leaving the masked repeat in [X1]. *)
Definition repeat_body (X d : ndarray3)
    (st : list float * option (list float)) (nn : nat)
  : outcome (list float * option (list float)) :=
  X1 <- slice3 X nn 0 ;;
  X2 <- slice3 d 0 0 ;;
  m <- masked_pair X1 X2 ;;
  Return (set_item (fst st) nn (np_corrcoef (fst m) (snd m)), Some (fst m)).

Definition read_local (name : string) (v : option (list float))
  : outcome (list float) :=
  match v with
  | Some x => Return x
  | None => Raise (NameError name)
  end.

(** The body of the loop over the folded prediction. *)
Definition ceiling_body (resp : signal) (N : Z)
    (st : ceiling_state) (kd : string * ndarray3) : M ceiling_state :=
  let k := fst kd in
  let d := snd kd in
  if 0 <? count_finite3 d then
    let X := extract_epoch resp k in
    rac <~ _r_single X N ;;
    if py_gt0 rac then
      let repcount := dim0 X in
      let rs := np_zeros repcount in
      lp <~ lift (for_each (repeat_body X d) (seq 0 repcount)
                    (rs, X1_local st)) ;;
      let rs := np_mean (fst lp) in
      X1 <~ lift (read_local "X1" (snd lp)) ;;
      let count := Z.of_nat (length X1) in
      let w := F64.mul (F64.div rs (F64.sqrt (to_float rac)))
                 (F64.of_Z count) in
      ret {| rnorm_c := py_add (rnorm_c st) (NpFloat w);
             n_total := (n_total st + count)%Z;
             X1_local := Some X1 |}
    else ret st
  else ret st.

Definition ceiling_init : ceiling_state :=
  {| rnorm_c := PyInt 0; n_total := 0%Z; X1_local := None |}.

Definition r_ceiling (result fullrec : recording)
    (pred_name resp_name : string) (N : Z) : M pyval :=
  let epoch_regex := "STIM_"%string in
  p <~ lift (getitem result pred_name) ;;
  let epochs_to_extract := epoch_names_matching (epochs p) epoch_regex in
  let folded_pred := extract_epochs p epochs_to_extract in
  r <~ lift (getitem fullrec resp_name) ;;
  let resp := rasterize r in
  st <~ for_eachM (ceiling_body resp N) folded_pred ceiling_init ;;
  lift (py_div (rnorm_c st) (n_total st)).

End Estimators.

(* ------------------------------------------------------------------ *)
(** ** Facts about lists and masks *)

Lemma zip_with_length {A B C} (f : A -> B -> C) (l : list A) (l' : list B) :
  length l = length l' -> length (zip_with f l l') = length l.
Proof.
  revert l'; induction l as [|a l IH]; intros [|b l'] H; simpl in *;
    try discriminate; auto.
Qed.

Lemma filter_map_swap {A B} (f : A -> B) (p : B -> bool) (l : list A) :
  filter p (map f l) = map f (filter (fun x => p (f x)) l).
Proof.
  induction l as [|a l IH]; simpl; auto.
  destruct (p (f a)); simpl; rewrite IH; reflexivity.
Qed.

Lemma filter_ext_in' {A} (p q : A -> bool) (l : list A) :
  (forall x, In x l -> p x = q x) -> filter p l = filter q l.
Proof.
  induction l as [|a l IH]; simpl; intros H; auto.
  rewrite (H a) by auto. rewrite IH by auto. reflexivity.
Qed.

(** Reading two equally long lists by position gives their [combine]. *)
Lemma map_nth_combine {A} (d : A) (a b : list A) :
  length a = length b ->
  map (fun j => (nth j a d, nth j b d)) (seq 0 (length a)) = combine a b.
Proof.
  revert b; induction a as [|x a IH]; intros [|y b] H; simpl in *;
    try discriminate; auto.
  f_equal. rewrite <- seq_shift, map_map. apply IH. lia.
Qed.

(** The jointly finite positions of two sequences, as pairs. *)
Definition both_finite (p : float * float) : bool :=
  F64.is_finite (fst p) && F64.is_finite (snd p).

Definition finite_pairs (a b : list float) : list (float * float) :=
  filter both_finite (combine a b).

Lemma select_zip_fst (a b : list float) :
  length a = length b ->
  select a (zip_with andb (map F64.is_finite a) (map F64.is_finite b))
  = map fst (finite_pairs a b).
Proof.
  revert b; induction a as [|x a IH]; intros [|y b] H; simpl in *;
    try discriminate; auto.
  unfold finite_pairs; simpl. unfold both_finite at 1; simpl.
  destruct (F64.is_finite x && F64.is_finite y); simpl;
    rewrite IH by lia; reflexivity.
Qed.

Lemma select_zip_snd (a b : list float) :
  length a = length b ->
  select b (zip_with andb (map F64.is_finite a) (map F64.is_finite b))
  = map snd (finite_pairs a b).
Proof.
  revert b; induction a as [|x a IH]; intros [|y b] H; simpl in *;
    try discriminate; auto.
  unfold finite_pairs; simpl. unfold both_finite at 1; simpl.
  destruct (F64.is_finite x && F64.is_finite y); simpl;
    rewrite IH by lia; reflexivity.
Qed.

Lemma finite_pairs_swap (a b : list float) :
  finite_pairs b a = map (fun p => (snd p, fst p)) (finite_pairs a b).
Proof.
  unfold finite_pairs. revert b; induction a as [|x a IH]; intros [|y b];
    simpl; auto.
  change (both_finite (y, x)) with (F64.is_finite y && F64.is_finite x).
  change (both_finite (x, y)) with (F64.is_finite x && F64.is_finite y).
  rewrite (andb_comm (F64.is_finite y)).
  destruct (F64.is_finite x && F64.is_finite y); simpl; rewrite IH;
    reflexivity.
Qed.

Lemma logical_and1_same_length (p q : list bool) :
  length p = length q -> logical_and1 p q = Return (zip_with andb p q).
Proof.
  intros H. unfold logical_and1. rewrite H, Nat.eqb_refl. reflexivity.
Qed.

Lemma bool_index1_same_length (a : list float) (m : list bool) :
  length a = length m -> bool_index1 a m = Return (select a m).
Proof.
  intros H. unfold bool_index1. rewrite H, Nat.eqb_refl. reflexivity.
Qed.

Lemma masked_pair_same_length (a b : list float) :
  length a = length b ->
  masked_pair a b
  = Return (map fst (finite_pairs a b), map snd (finite_pairs a b)).
Proof.
  intros H. unfold masked_pair.
  rewrite logical_and1_same_length by (rewrite !length_map; exact H).
  cbn [bind].
  assert (L : length (zip_with andb (map F64.is_finite a)
                        (map F64.is_finite b)) = length a).
  { rewrite zip_with_length; rewrite !length_map; auto. }
  rewrite (bool_index1_same_length a) by (symmetry; exact L).
  cbn [bind].
  rewrite (bool_index1_same_length b) by (rewrite L; symmetry; exact H).
  cbn [bind]. rewrite select_zip_fst, select_zip_snd by exact H.
  reflexivity.
Qed.

(** *** The mask of two single-channel signals *)

Lemma cells_one_row (c : nat) : cells 1 c = map (fun j => (0, j)) (seq 0 c).
Proof. unfold cells. simpl. apply app_nil_r. Qed.

Lemma broadcast_dim_same (n : nat) : broadcast_dim n n = Some n.
Proof. unfold broadcast_dim. rewrite Nat.eqb_refl. reflexivity. Qed.

Section RowMask.

Variables a b : list float.
Hypothesis same_length : length a = length b.

Definition row_mask : array2 bool :=
  {| nrows := 1; ncols := length a;
     get2 := fun _ j =>
       F64.is_finite (nth (bidx (length a) j) a F64.nan)
       && F64.is_finite (nth (bidx (length a) j) b F64.nan) |}.

Lemma logical_and2_rows :
  logical_and2 (map2 F64.is_finite (of_row a)) (map2 F64.is_finite (of_row b))
  = Return row_mask.
Proof.
  unfold logical_and2. simpl. rewrite <- same_length.
  rewrite !broadcast_dim_same. reflexivity.
Qed.

Lemma bidx_in_range (n j : nat) : j < n -> bidx n j = j.
Proof. unfold bidx. destruct (Nat.eqb_spec n 1); lia. Qed.

Lemma row_mask_cells :
  filter (fun c => get2 row_mask (fst c) (snd c)) (cells 1 (length a))
  = map (fun j => (0, j))
      (filter (fun j => both_finite (nth j a F64.nan, nth j b F64.nan))
         (seq 0 (length a))).
Proof.
  rewrite cells_one_row, filter_map_swap. f_equal.
  apply filter_ext_in'. intros j Hj. apply in_seq in Hj. simpl.
  rewrite bidx_in_range by lia. reflexivity.
Qed.

Lemma selected_positions :
  map (fun j => (nth j a F64.nan, nth j b F64.nan))
    (filter (fun j => both_finite (nth j a F64.nan, nth j b F64.nan))
       (seq 0 (length a)))
  = finite_pairs a b.
Proof.
  unfold finite_pairs. rewrite <- (map_nth_combine F64.nan a b same_length).
  rewrite filter_map_swap. reflexivity.
Qed.

Lemma np_sum2_row_mask : np_sum2 row_mask = length (finite_pairs a b).
Proof.
  unfold np_sum2. change (nrows row_mask) with 1.
  change (ncols row_mask) with (length a).
  rewrite row_mask_cells, length_map, <- selected_positions, length_map.
  reflexivity.
Qed.

Lemma bool_index2_pred :
  bool_index2 (of_row a) row_mask = Return (map fst (finite_pairs a b)).
Proof.
  unfold bool_index2. simpl nrows. simpl ncols. rewrite !Nat.eqb_refl.
  simpl andb. cbv iota. rewrite row_mask_cells, <- selected_positions.
  rewrite !map_map. reflexivity.
Qed.

Lemma bool_index2_resp :
  bool_index2 (of_row b) row_mask = Return (map snd (finite_pairs a b)).
Proof.
  unfold bool_index2. simpl nrows. simpl ncols.
  rewrite <- same_length, !Nat.eqb_refl.
  simpl andb. cbv iota. rewrite row_mask_cells, <- selected_positions.
  rewrite !map_map. reflexivity.
Qed.

End RowMask.

(* ------------------------------------------------------------------ *)
(** ** corrcoef: the correlation of two single-channel signals *)

(** The recording that holds the samples [a] as its prediction and the
    samples [b] as its response, one channel each. *)
Definition recording_of (a b : list float) : recording :=
  mk_recording (continuous_signal (of_row a)) (continuous_signal (of_row b)).

Lemma existsb_filter_length {A} (p : A -> bool) (l : list A) :
  existsb p l = negb (length (filter p l) =? 0).
Proof.
  induction l as [|x l IH]; simpl; auto.
  destruct (p x); simpl; auto.
Qed.

Lemma getitem_pred (pred resp : signal) :
  getitem (mk_recording pred resp) "pred" = Return pred.
Proof. reflexivity. Qed.

Lemma getitem_resp (pred resp : signal) :
  getitem (mk_recording pred resp) "resp" = Return resp.
Proof. reflexivity. Qed.

Section CorrcoefFacts.

Variable np_corrcoef : list float -> list float -> float.

Lemma corrcoef_rows (a b : list float) :
  length a = length b ->
  corrcoef np_corrcoef (recording_of a b) "pred" "resp"
  = if length (finite_pairs a b) =? 0 then Return (PyInt 0)
    else Return (NpFloat (np_corrcoef (map fst (finite_pairs a b))
                                      (map snd (finite_pairs a b)))).
Proof.
  intros H. unfold corrcoef, recording_of.
  rewrite getitem_pred, getitem_resp.
  cbn [bind as_continuous continuous_signal].
  change (1 <? nrows (of_row a)) with false. cbv iota.
  rewrite (logical_and2_rows a b H). cbn [bind].
  rewrite (np_sum2_row_mask a b H).
  destruct (length (finite_pairs a b) =? 0); [reflexivity|].
  rewrite (bool_index2_pred a b H). cbn [bind].
  rewrite (bool_index2_resp a b H). cbn [bind]. reflexivity.
Qed.

End CorrcoefFacts.

(** C6.  For equally long sequences [a] and [b], [corrcoef] returns the
    integer 0 when no position holds a finite value in both, and otherwise
    [np.corrcoef(a', b')[0, 1]] of the subsequences [a'], [b'] taken at
    the jointly finite positions. *)
Theorem corrcoef_finite_mask_fallback :
  forall (np_corrcoef : list float -> list float -> float)
         (a b : list float),
    length a = length b ->
    corrcoef np_corrcoef (recording_of a b) "pred" "resp"
    = Return
        (if existsb both_finite (combine a b)
         then NpFloat (np_corrcoef (map fst (filter both_finite (combine a b)))
                                   (map snd (filter both_finite (combine a b))))
         else PyInt 0).
Proof.
  intros f a b H. rewrite corrcoef_rows by exact H.
  rewrite existsb_filter_length. unfold finite_pairs.
  destruct (length (filter both_finite (combine a b)) =? 0); reflexivity.
Qed.

(** C8 (as amended).  Swapping prediction and response keeps the finite
    mask and the fallback: with [a'], [b'] the subsequences of [a], [b]
    at the jointly finite positions, [corrcoef] of [(a, b)] is
    [np.corrcoef(a', b')[0, 1]] and [corrcoef] of [(b, a)] is
    [np.corrcoef(b', a')[0, 1]], and both are the integer 0 when there is
    no such position.  The two results are therefore equal exactly when
    there is no jointly finite position or [np.corrcoef] gives the same
    number for [(a', b')] and [(b', a')]; nothing in [corrcoef] makes
    them equal otherwise. *)
Theorem corrcoef_swap :
  forall (np_corrcoef : list float -> list float -> float)
         (a b : list float),
    length a = length b ->
    let a' := map fst (filter both_finite (combine a b)) in
    let b' := map snd (filter both_finite (combine a b)) in
    corrcoef np_corrcoef (recording_of a b) "pred" "resp"
    = Return (if existsb both_finite (combine a b)
              then NpFloat (np_corrcoef a' b') else PyInt 0)
    /\ corrcoef np_corrcoef (recording_of b a) "pred" "resp"
       = Return (if existsb both_finite (combine a b)
                 then NpFloat (np_corrcoef b' a') else PyInt 0)
    /\ (corrcoef np_corrcoef (recording_of a b) "pred" "resp"
        = corrcoef np_corrcoef (recording_of b a) "pred" "resp"
        <-> existsb both_finite (combine a b) = false
            \/ np_corrcoef a' b' = np_corrcoef b' a').
Proof.
  intros f a b H a' b'.
  assert (Ea : corrcoef f (recording_of a b) "pred" "resp"
               = Return (if existsb both_finite (combine a b)
                         then NpFloat (f a' b') else PyInt 0)).
  { rewrite (corrcoef_rows f a b H), existsb_filter_length.
    unfold finite_pairs. fold a' b'.
    destruct (length (filter both_finite (combine a b)) =? 0); reflexivity. }
  assert (Eb : corrcoef f (recording_of b a) "pred" "resp"
               = Return (if existsb both_finite (combine a b)
                         then NpFloat (f b' a') else PyInt 0)).
  { rewrite (corrcoef_rows f b a (eq_sym H)), existsb_filter_length.
    rewrite (finite_pairs_swap a b), !map_map, length_map. cbn [fst snd].
    unfold finite_pairs.
    change (map (fun x : float * float => snd x)
              (filter both_finite (combine a b))) with b'.
    change (map (fun x : float * float => fst x)
              (filter both_finite (combine a b))) with a'.
    destruct (length (filter both_finite (combine a b)) =? 0); reflexivity. }
  split; [exact Ea|]. split; [exact Eb|].
  rewrite Ea, Eb.
  destruct (existsb both_finite (combine a b)); split.
  - intros E. right. inversion E. reflexivity.
  - intros [E|E]; [discriminate E|]. rewrite E. reflexivity.
  - intros _. left. reflexivity.
  - intros _. reflexivity.
Qed.

(** The check of [corrcoef] reads the prediction's shape only: whatever
    the response, a single-channel prediction is never rejected with the
    multi-channel error. *)
Lemma corrcoef_checks_prediction_only :
  forall (np_corrcoef : list float -> list float -> float)
         (pred resp : signal),
    nrows (as_continuous pred) <= 1 ->
    corrcoef np_corrcoef (mk_recording pred resp) "pred" "resp"
    <> Raise (ValueError multi_channel_msg).
Proof.
  intros f pred resp H. unfold corrcoef.
  rewrite getitem_pred, getitem_resp. cbn [bind].
  destruct (Nat.ltb_spec 1 (nrows (as_continuous pred))); [lia|].
  unfold logical_and2.
  destruct (broadcast_dim _ _); [destruct (broadcast_dim _ _)|];
    cbn [bind]; try discriminate.
  destruct (np_sum2 _ =? 0); [discriminate|].
  unfold bool_index2.
  repeat (match goal with
          | |- context [if ?c then _ else _] => destruct c
          end; cbn [bind]; try discriminate).
Qed.

(* ------------------------------------------------------------------ *)
(** ** The order of binary64 numbers *)

Lemma SFcompare_antisym (x y : float) :
  SFcompare y x = option_map CompOpp (SFcompare x y).
Proof.
  destruct x as [sx|sx| |sx mx ex], y as [sy|sy| |sy my ey]; simpl;
    try reflexivity;
    try (destruct sx; reflexivity); try (destruct sy; reflexivity);
    try (destruct sx, sy; reflexivity).
  destruct sx, sy; simpl; try reflexivity;
    rewrite (Z.compare_antisym ex ey);
    destruct (ex ?= ey)%Z; simpl; try reflexivity;
    rewrite (Pos.compare_cont_antisym mx my Eq); reflexivity.
Qed.

Lemma SFcompare_defined (x y : float) :
  F64.is_nan x = false -> F64.is_nan y = false -> SFcompare x y <> None.
Proof.
  destruct x as [sx|sx| |sx mx ex], y as [sy|sy| |sy my ey]; simpl;
    intros; congruence.
Qed.

(** Two numbers are ordered one way or the other unless one is NaN. *)
Lemma leb_total (x y : float) :
  F64.is_nan x = false -> F64.is_nan y = false ->
  F64.leb x y = false -> F64.leb y x = true.
Proof.
  intros Hx Hy. unfold F64.leb, SFleb. rewrite (SFcompare_antisym x y).
  pose proof (SFcompare_defined x y Hx Hy) as D.
  destruct (SFcompare x y) as [[ | | ]|]; simpl; congruence.
Qed.


Lemma finite_not_nan (x : float) : F64.is_finite x = true -> F64.is_nan x = false.
Proof. destruct x; simpl; congruence. Qed.

(** *** Sorting *)

Definition le_float (x y : float) : Prop := F64.leb x y = true.

Lemma insert_sorted_perm (x : float) (l : list float) :
  Permutation (insert_sorted x l) (x :: l).
Proof.
  induction l as [|y l IH]; simpl; auto.
  destruct (F64.leb x y); auto.
  rewrite IH. apply perm_swap.
Qed.

Lemma np_sort_perm (l : list float) : Permutation (np_sort l) l.
Proof.
  induction l as [|x l IH]; simpl; auto.
  rewrite insert_sorted_perm. auto.
Qed.

Lemma insert_sorted_sorted (x : float) (l : list float) :
  F64.is_nan x = false -> Forall (fun y => F64.is_nan y = false) l ->
  Sorted le_float l -> Sorted le_float (insert_sorted x l).
Proof.
  intros Hx Hl Hs. induction Hs as [|y l Hs IH Hd]; simpl.
  - repeat constructor.
  - inversion Hl as [|? ? Hy Hl']; subst.
    destruct (F64.leb x y) eqn:E.
    + constructor; [constructor; assumption|]. constructor. exact E.
    + constructor; [apply IH; assumption|].
      destruct l as [|z l]; simpl.
      * constructor. apply leb_total; assumption.
      * destruct (F64.leb x z); constructor.
        -- apply leb_total; assumption.
        -- inversion Hd; assumption.
Qed.

Lemma np_sort_sorted (l : list float) :
  Forall (fun y => F64.is_nan y = false) l -> Sorted le_float (np_sort l).
Proof.
  induction l as [|x l IH]; simpl; intros H.
  - constructor.
  - inversion H; subst. apply insert_sorted_sorted; auto.
    eapply Permutation_Forall; [symmetry; apply np_sort_perm|]. assumption.
Qed.

(** *** Sorting indices *)

Lemma insert_index_perm (key : nat -> float) (i : nat) (l : list nat) :
  Permutation (insert_index key i l) (i :: l).
Proof.
  induction l as [|j l IH]; simpl; auto.
  destruct (F64.ltb (key i) (key j)); auto.
  rewrite IH. apply perm_swap.
Qed.

Lemma fold_insert_index_perm (key : nat -> float) (l acc : list nat) :
  Permutation (fold_left (fun a i => insert_index key i a) l acc) (l ++ acc).
Proof.
  revert acc; induction l as [|i l IH]; intros acc; simpl; auto.
  rewrite IH. rewrite insert_index_perm. symmetry. apply Permutation_middle.
Qed.

Lemma np_argsort_perm (v : list float) :
  Permutation (np_argsort v) (seq 0 (length v)).
Proof.
  unfold np_argsort. rewrite fold_insert_index_perm, app_nil_r. auto.
Qed.

Lemma np_argsort_length (v : list float) : length (np_argsort v) = length v.
Proof.
  rewrite (Permutation_length (np_argsort_perm v)). apply length_seq.
Qed.

Lemma np_argsort_in_range (v : list float) (i : nat) :
  In i (np_argsort v) -> i < length v.
Proof.
  intros H. apply (Permutation_in _ (np_argsort_perm v)) in H.
  apply in_seq in H. lia.
Qed.

Lemma np_argsort_nodup (v : list float) : NoDup (np_argsort v).
Proof.
  eapply Permutation_NoDup; [symmetry; apply np_argsort_perm|].
  apply seq_NoDup.
Qed.

(* ------------------------------------------------------------------ *)
(** ** Filling an array in a loop *)

Lemma set_item_middle (pre rest : list float) (x v : float) :
  set_item (pre ++ x :: rest) (length pre) v = pre ++ v :: rest.
Proof. induction pre as [|y pre IH]; simpl; [reflexivity|]. rewrite IH. reflexivity. Qed.

Lemma set_item_length (a : list float) (i : nat) (v : float) :
  length (set_item a i v) = length a.
Proof.
  revert i; induction a as [|x a IH]; intros [|i]; simpl; auto.
Qed.

(** A loop over [range(k, k + m)] that stores [f nn] at index [nn] of an
    array of zeros, and leaves [g nn] in a second variable, ends with the
    array [f k, ..., f (k + m - 1)] and the value of the last pass. *)
Lemma for_each_fill {T : Type}
    (body : list float * T -> nat -> outcome (list float * T))
    (f : nat -> float) (g : nat -> T) (m : nat) :
  forall (k : nat) (pre : list float) (t : T),
    length pre = k ->
    (forall st nn, k <= nn < k + m ->
       body st nn = Return (set_item (fst st) nn (f nn), g nn)) ->
    for_each body (seq k m) (pre ++ np_zeros m, t)
    = Return (pre ++ map f (seq k m),
              match m with O => t | S m' => g (k + m') end).
Proof.
  induction m as [|m IH]; intros k pre t Hk Hb.
  - reflexivity.
  - change (np_zeros (S m)) with (F64.zero :: np_zeros m). simpl.
    rewrite Hb by lia. cbn [bind fst]. subst k.
    rewrite set_item_middle.
    change (pre ++ f (length pre) :: np_zeros m)
      with (pre ++ [f (length pre)] ++ np_zeros m).
    rewrite app_assoc.
    rewrite (IH (S (length pre)) (pre ++ [f (length pre)]) (g (length pre))).
    + rewrite <- app_assoc. simpl. f_equal. f_equal.
      destruct m; [f_equal; lia|f_equal; lia].
    + rewrite length_app. simpl. lia.
    + intros st nn Hnn. apply Hb. lia.
Qed.

(** The same loop without the second variable. *)
Lemma for_each_fill_array
    (body : list float -> nat -> outcome (list float))
    (f : nat -> float) (m : nat) :
  forall (k : nat) (pre : list float),
    length pre = k ->
    (forall a nn, k <= nn < k + m ->
       body a nn = Return (set_item a nn (f nn))) ->
    for_each body (seq k m) (pre ++ np_zeros m)
    = Return (pre ++ map f (seq k m)).
Proof.
  induction m as [|m IH]; intros k pre Hk Hb.
  - reflexivity.
  - change (np_zeros (S m)) with (F64.zero :: np_zeros m). simpl.
    rewrite Hb by lia. cbn [bind]. subst k.
    rewrite set_item_middle.
    change (pre ++ f (length pre) :: np_zeros m)
      with (pre ++ [f (length pre)] ++ np_zeros m).
    rewrite app_assoc.
    rewrite (IH (S (length pre)) (pre ++ [f (length pre)])).
    + rewrite <- app_assoc. reflexivity.
    + rewrite length_app. simpl. lia.
    + intros a nn Hnn. apply Hb. lia.
Qed.

(* ------------------------------------------------------------------ *)
(** ** The pairs of repeats *)

Lemma all_pairs_in (r p1 p2 : nat) :
  In (p1, p2) (all_pairs r) <-> p1 < p2 < r.
Proof.
  unfold all_pairs. rewrite in_flat_map. split.
  - intros [x [Hx Hin]]. apply in_map_iff in Hin.
    destruct Hin as [y [E Hy]]. inversion E; subst.
    apply in_seq in Hx. apply in_seq in Hy. lia.
  - intros H. exists p1. split; [apply in_seq; lia|].
    apply in_map_iff. exists p2. split; [reflexivity|apply in_seq; lia].
Qed.

Lemma length_flat_map_sum {A B} (f : A -> list B) (l : list A) :
  length (flat_map f l) = list_sum (map (fun x => length (f x)) l).
Proof.
  induction l as [|x l IH]; simpl; auto.
  rewrite length_app, IH. reflexivity.
Qed.

Lemma sum_down (m : nat) :
  forall a r, a + m = r ->
    2 * list_sum (map (fun p1 => r - (p1 + 1)) (seq a m)) = m * (m - 1).
Proof.
  induction m as [|m IH]; intros a r H; simpl; [reflexivity|].
  specialize (IH (S a) r ltac:(lia)).
  replace (r - (a + 1)) with m by lia.
  destruct m as [|m]; simpl in *; [lia|]. nia.
Qed.

(** The nested loops enumerate [comb(repcount, 2)] pairs. *)
Lemma all_pairs_length (r : nat) : length (all_pairs r) = comb2 r.
Proof.
  unfold all_pairs, comb2. rewrite length_flat_map_sum.
  erewrite map_ext by (intros; rewrite length_map, length_seq; reflexivity).
  pose proof (sum_down r 0 r eq_refl) as H.
  rewrite <- H. rewrite Nat.mul_comm, Nat.div_mul by lia. reflexivity.
Qed.

Lemma all_pairs_nodup (r : nat) : NoDup (all_pairs r).
Proof.
  unfold all_pairs. generalize (seq_NoDup r 0).
  generalize (seq 0 r) as l. induction l as [|x l IH]; intros ND; simpl.
  - constructor.
  - inversion ND as [|? ? Hx ND']; subst.
    apply NoDup_app; [| apply IH; assumption |].
    + apply Finite.Injective_map_NoDup; [|apply seq_NoDup].
      intros u v E. congruence.
    + intros [p q] Hin Hin'. apply in_map_iff in Hin.
      destruct Hin as [y [E _]]. inversion E; subst.
      apply in_flat_map in Hin'. destruct Hin' as [z [Hz Hin']].
      apply in_map_iff in Hin'. destruct Hin' as [w [E' _]].
      inversion E'; subst. contradiction.
Qed.

(* ------------------------------------------------------------------ *)
(** ** _r_single: the reliability of a raster *)

(** The time series of repeat [i] (channel 0). *)
Definition row (X : ndarray3) (i : nat) : list float :=
  map (get3 X i 0) (seq 0 (dim2 X)).

(** The floor clamp at the end of [_r_single]. *)
Definition clamp (m : float) : pyval :=
  if F64.ltb m F64.c0_05 then PyFloat F64.c0_05 else NpFloat m.

(** The pairs the shuffle [u] selects: the first [n] of the pair list
    read in the order [np.argsort(u)]. *)
Definition sampled_pairs (repcount : nat) (u : list float) (n : nat)
  : list (nat * nat) :=
  map (fun nn => nth (nth nn (np_argsort u) 0) (all_pairs repcount) (0, 0))
    (seq 0 n).

(** The cap after its reduction to the number of pairs. *)
Definition effective_N (repcount : nat) (N : Z) : Z :=
  Z.min N (Z.of_nat (repcount * (repcount - 1) / 2)).

Lemma get_item_in_range {A} (l : list A) (i : nat) (d : A) :
  i < length l -> get_item l i = Return (nth i l d).
Proof.
  intros H. unfold get_item.
  destruct (nth_error l i) eqn:E.
  - rewrite (nth_error_nth _ _ d E). reflexivity.
  - apply nth_error_None in E. lia.
Qed.

Lemma slice3_in_range (X : ndarray3) (i : nat) :
  i < dim0 X -> 0 < dim1 X -> slice3 X i 0 = Return (row X i).
Proof.
  intros Hi Hc. unfold slice3.
  destruct (Nat.ltb_spec i (dim0 X)); [|lia].
  destruct (Nat.ltb_spec 0 (dim1 X)); [|lia]. reflexivity.
Qed.

Lemma row_length (X : ndarray3) (i : nat) : length (row X i) = dim2 X.
Proof. unfold row. rewrite length_map, length_seq. reflexivity. Qed.

Lemma reduced_cap (pc N : Z) :
  (if (pc <? N)%Z then pc else N) = Z.min N pc.
Proof. destruct (Z.ltb_spec pc N); lia. Qed.

Section SingleFacts.

Variable np_corrcoef : list float -> list float -> float.
Variable np_mean : list float -> float.
Variable uniform : nat -> float.

(** The correlation of the two repeats of a pair over their jointly
    finite samples. *)
Definition pair_corr (X : ndarray3) (pr : nat * nat) : float :=
  np_corrcoef
    (map fst (finite_pairs (row X (fst pr)) (row X (snd pr))))
    (map snd (finite_pairs (row X (fst pr)) (row X (snd pr)))).

Lemma single_body_value (X : ndarray3) (sidx : list nat)
    (rac : list float) (nn : nat) :
  dim1 X = 1 ->
  nn < length sidx ->
  (forall i, In i sidx -> i < length (all_pairs (dim0 X))) ->
  single_body np_corrcoef X (all_pairs (dim0 X)) sidx rac nn
  = Return (set_item rac nn
              (pair_corr X (nth (nth nn sidx 0) (all_pairs (dim0 X)) (0, 0)))).
Proof.
  intros Hc Hnn Hs. unfold single_body.
  rewrite (get_item_in_range sidx nn 0 Hnn). cbn [bind].
  assert (Hi : nth nn sidx 0 < length (all_pairs (dim0 X)))
    by (apply Hs, nth_In, Hnn).
  rewrite (get_item_in_range _ _ (0, 0) Hi). cbn [bind].
  assert (Hp : In (nth (nth nn sidx 0) (all_pairs (dim0 X)) (0, 0))
                 (all_pairs (dim0 X))) by (apply nth_In, Hi).
  destruct (nth (nth nn sidx 0) (all_pairs (dim0 X)) (0, 0)) as [p1 p2] eqn:E.
  apply all_pairs_in in Hp. cbn [fst snd].
  rewrite (slice3_in_range X p1) by lia. cbn [bind].
  rewrite (slice3_in_range X p2) by lia. cbn [bind].
  rewrite masked_pair_same_length by (rewrite !row_length; reflexivity).
  cbn [bind fst snd]. reflexivity.
Qed.

(** With one channel, at least two repeats and a reduced cap other than
    one, [_r_single] returns the clamped mean of the correlations of the
    sampled pairs, and has drawn one variate per pair. *)
Lemma r_single_value (X : ndarray3) (N : Z) (s : nat) :
  dim1 X = 1 -> 2 <= dim0 X ->
  effective_N (dim0 X) N <> 1%Z -> (0 <= effective_N (dim0 X) N)%Z ->
  _r_single np_corrcoef np_mean uniform X N s
  = (Return (clamp (np_mean
       (map (pair_corr X)
          (sampled_pairs (dim0 X) (map uniform (seq s (comb2 (dim0 X))))
             (Z.to_nat (effective_N (dim0 X) N)))))),
     s + comb2 (dim0 X)).
Proof.
  intros Hc Hr Hne Hpos. unfold _r_single. rewrite Hc.
  change (1 <? 1) with false. cbv iota.
  destruct (Nat.leb_spec (dim0 X) 1); [lia|].
  rewrite reduced_cap. fold (comb2 (dim0 X)).
  unfold effective_N in *. fold (comb2 (dim0 X)) in *.
  set (Ne := Z.min N (Z.of_nat (comb2 (dim0 X)))) in *.
  destruct (Z.eqb_spec Ne 1); [contradiction|].
  destruct (Z.ltb_spec Ne 0); [lia|].
  unfold bindM, np_random_rand, lift.
  set (u := map uniform (seq s (comb2 (dim0 X)))).
  assert (Hu : length u = comb2 (dim0 X))
    by (unfold u; rewrite length_map, length_seq; reflexivity).
  rewrite (for_each_fill_array _
             (fun nn => pair_corr X
                (nth (nth nn (np_argsort u) 0) (all_pairs (dim0 X)) (0, 0)))
             (Z.to_nat Ne) 0 [] eq_refl).
  - cbn [app]. unfold ret, clamp, sampled_pairs. rewrite map_map.
    destruct (F64.ltb _ F64.c0_05); reflexivity.
  - intros a nn Hnn. apply single_body_value; [exact Hc| |].
    + rewrite np_argsort_length, Hu. unfold Ne in *. lia.
    + intros i Hi. apply np_argsort_in_range in Hi.
      rewrite all_pairs_length. lia.
Qed.

Lemma r_single_few_repeats (X : ndarray3) (N : Z) (s : nat) :
  dim1 X <= 1 -> dim0 X <= 1 ->
  _r_single np_corrcoef np_mean uniform X N s = (Return (PyInt 0), s).
Proof.
  intros Hc Hr. unfold _r_single.
  destruct (Nat.ltb_spec 1 (dim1 X)); [lia|].
  destruct (Nat.leb_spec (dim0 X) 1); [|lia]. reflexivity.
Qed.

Lemma r_single_unsupported (X : ndarray3) (N : Z) (s : nat) :
  dim1 X <= 1 -> 2 <= dim0 X -> effective_N (dim0 X) N = 1%Z ->
  _r_single np_corrcoef np_mean uniform X N s
  = (Raise (ValueError two_repeats_msg), s).
Proof.
  intros Hc Hr He. unfold _r_single.
  destruct (Nat.ltb_spec 1 (dim1 X)); [lia|].
  destruct (Nat.leb_spec (dim0 X) 1); [lia|].
  rewrite reduced_cap. unfold effective_N, comb2 in *. rewrite He.
  reflexivity.
Qed.

Lemma r_single_negative_cap (X : ndarray3) (N : Z) (s : nat) :
  dim1 X <= 1 -> 2 <= dim0 X -> (effective_N (dim0 X) N < 0)%Z ->
  _r_single np_corrcoef np_mean uniform X N s
  = (Raise (ValueError negative_dim_msg), s).
Proof.
  intros Hc Hr He. unfold _r_single.
  destruct (Nat.ltb_spec 1 (dim1 X)); [lia|].
  destruct (Nat.leb_spec (dim0 X) 1); [lia|].
  rewrite reduced_cap. unfold effective_N, comb2 in *.
  destruct (Z.eqb_spec (Z.min N (Z.of_nat (dim0 X * (dim0 X - 1) / 2))) 1);
    [lia|].
  destruct (Z.ltb_spec (Z.min N (Z.of_nat (dim0 X * (dim0 X - 1) / 2))) 0);
    [reflexivity|lia].
Qed.

End SingleFacts.

Lemma comb2_pos (r : nat) : 2 <= r -> 1 <= r * (r - 1) / 2.
Proof.
  intros H. apply Nat.div_le_lower_bound; [lia|]. nia.
Qed.

Lemma comb2_small (r : nat) : r <= 1 -> r * (r - 1) / 2 = 0.
Proof.
  intros H. destruct r as [|[|r]]; try reflexivity. lia.
Qed.


(** The sampled pairs are distinct pairs [p1 < p2] of repeats, as many as
    the reduced cap. *)
Lemma sampled_pairs_spec (repcount n : nat) (u : list float) :
  length u = comb2 repcount -> n <= comb2 repcount ->
  length (sampled_pairs repcount u n) = n
  /\ NoDup (sampled_pairs repcount u n)
  /\ Forall (fun pr => fst pr < snd pr < repcount) (sampled_pairs repcount u n).
Proof.
  intros Hu Hn. unfold sampled_pairs. split; [|split].
  - rewrite length_map, length_seq. reflexivity.
  - rewrite <- (map_map (fun nn => nth nn (np_argsort u) 0)
                  (fun i => nth i (all_pairs repcount) (0, 0))).
    assert (R : forall m, m <= length (np_argsort u) ->
              map (fun nn => nth nn (np_argsort u) 0) (seq 0 m)
              = firstn m (np_argsort u)).
    { generalize (np_argsort u) as l. intros l m. revert l.
      induction m as [|m IH]; intros l Hm; [reflexivity|].
      destruct l as [|x l]; simpl in Hm; [lia|].
      simpl. f_equal. rewrite <- seq_shift, map_map. apply IH. lia. }
    rewrite R by (rewrite np_argsort_length; lia).
    assert (ND : NoDup (firstn n (np_argsort u))).
    { pose proof (np_argsort_nodup u) as H.
      rewrite <- (firstn_skipn n (np_argsort u)) in H.
      apply NoDup_app_remove_r in H. exact H. }
    assert (IN : forall i, In i (firstn n (np_argsort u)) ->
                           i < length (all_pairs repcount)).
    { intros i Hi. rewrite all_pairs_length, <- Hu.
      apply np_argsort_in_range.
      rewrite <- (firstn_skipn n (np_argsort u)). apply in_or_app. auto. }
    revert ND IN. generalize (firstn n (np_argsort u)) as l.
    induction l as [|x l IH]; intros ND IN; simpl; [constructor|].
    inversion ND as [|? ? Hx ND']; subst. constructor.
    + intros Hin. apply in_map_iff in Hin. destruct Hin as [y [E Hy]].
      apply Hx.
      assert (y = x); [|subst; exact Hy].
      apply (proj1 (NoDup_nth (all_pairs repcount) (0, 0))
               (all_pairs_nodup repcount)); auto.
      * apply IN. right. exact Hy.
      * apply IN. left. reflexivity.
    + apply IH; auto. intros i Hi. apply IN. right. exact Hi.
  - apply Forall_forall. intros [p1 p2] Hin. apply in_map_iff in Hin.
    destruct Hin as [nn [E Hnn]]. apply in_seq in Hnn.
    cbn [fst snd]. apply all_pairs_in. rewrite <- E. apply nth_In.
    rewrite all_pairs_length, <- Hu. apply np_argsort_in_range.
    apply nth_In. rewrite np_argsort_length. lia.
Qed.


(** C4.  On a single-channel raster with exactly two repeats, and a cap
    of at least one pair, [_r_single] raises the error of the unsupported
    two-repeat case. *)
Theorem r_single_two_repeats_raises :
  forall (np_corrcoef : list float -> list float -> float)
         (np_mean : list float -> float) (uniform : nat -> float)
         (X : ndarray3) (N : Z) (s : nat),
    dim1 X = 1 -> dim0 X = 2 -> (1 <= N)%Z ->
    _r_single np_corrcoef np_mean uniform X N s
    = (Raise (ValueError two_repeats_msg), s).
Proof.
  intros f mean u X N s Hc Hr HN.
  apply r_single_unsupported; [lia|lia|].
  unfold effective_N. rewrite Hr. change (2 * (2 - 1) / 2) with 1. lia.
Qed.

(** C9.  On a single-channel raster [_r_single] raises the error of the
    unsupported case exactly when the cap, once reduced to the number of
    pairs, is one: [min(N, repeats * (repeats - 1) / 2) = 1].  A cap
    [N = 1] therefore raises it on every raster of two or more repeats. *)
Theorem r_single_unsupported_iff :
  forall (np_corrcoef : list float -> list float -> float)
         (np_mean : list float -> float) (uniform : nat -> float)
         (X : ndarray3) (N : Z) (s : nat),
    dim1 X = 1 ->
    (fst (_r_single np_corrcoef np_mean uniform X N s)
     = Raise (ValueError two_repeats_msg)
     <-> Z.min N (Z.of_nat (dim0 X * (dim0 X - 1) / 2)) = 1%Z)
    /\ (N = 1%Z -> 2 <= dim0 X ->
        fst (_r_single np_corrcoef np_mean uniform X N s)
        = Raise (ValueError two_repeats_msg)).
Proof.
  intros f mean u X N s Hc. split; [split|].
  - intros H. destruct (le_lt_dec (dim0 X) 1) as [Hr|Hr].
    + rewrite r_single_few_repeats in H by lia. discriminate H.
    + destruct (Z.eq_dec (effective_N (dim0 X) N) 1) as [E|E]; [exact E|].
      destruct (Z_lt_le_dec (effective_N (dim0 X) N) 0) as [L|L].
      * rewrite r_single_negative_cap in H by (auto; lia).
        discriminate H.
      * rewrite r_single_value in H by (auto; lia). discriminate H.
  - intros H. destruct (le_lt_dec (dim0 X) 1) as [Hr|Hr].
    + rewrite comb2_small in H by exact Hr. lia.
    + rewrite r_single_unsupported by (auto; lia). reflexivity.
  - intros HN Hr. rewrite r_single_unsupported; [reflexivity|lia|lia|].
    unfold effective_N. pose proof (comb2_pos (dim0 X) Hr). lia.
Qed.

(* ------------------------------------------------------------------ *)
(** ** r_ceiling: the noise-corrected agreement *)

Lemma list_sum_zero {A} (f : A -> nat) (l : list A) :
  (forall x, In x l -> f x = 0) -> list_sum (map f l) = 0.
Proof.
  induction l as [|x l IH]; simpl; intros H; [reflexivity|].
  rewrite (H x) by auto. rewrite IH by auto. reflexivity.
Qed.

(** An array with a finite sample has a first occurrence and a first
    channel. *)
Lemma count_finite3_dims (d : ndarray3) :
  0 < count_finite3 d -> 0 < dim0 d /\ 0 < dim1 d.
Proof.
  unfold count_finite3. intros H.
  destruct (dim0 d) as [|r] eqn:E0; [simpl in H; lia|].
  destruct (dim1 d) as [|c] eqn:E1; [|lia].
  rewrite list_sum_zero in H; [lia|]. intros; reflexivity.
Qed.

Section CeilingFacts.

Variable np_corrcoef : list float -> list float -> float.
Variable np_mean : list float -> float.
Variable uniform : nat -> float.

(** The correlation of repeat [nn] of the raster with the first
    occurrence of the prediction, over their jointly finite samples. *)
Definition repeat_corr (X d : ndarray3) (nn : nat) : float :=
  np_corrcoef (map fst (finite_pairs (row X nn) (row d 0)))
              (map snd (finite_pairs (row X nn) (row d 0))).

Definition repeat_corrs (X d : ndarray3) : list float :=
  map (repeat_corr X d) (seq 0 (dim0 X)).

(** The number of jointly finite samples of the last repeat and the
    prediction. *)
Definition last_pair_samples (X d : ndarray3) : list float :=
  map fst (finite_pairs (row X (dim0 X - 1)) (row d 0)).

Definition sample_count (X d : ndarray3) : Z :=
  Z.of_nat (length (finite_pairs (row X (dim0 X - 1)) (row d 0))).

(** What one epoch adds to the weighted sum. *)
Definition epoch_term (X d : ndarray3) (rac : pyval) : float :=
  F64.mul (F64.div (np_mean (repeat_corrs X d)) (F64.sqrt (to_float rac)))
          (F64.of_Z (sample_count X d)).

Lemma repeat_body_value (X d : ndarray3)
    (st : list float * option (list float)) (nn : nat) :
  dim1 X = 1 -> 0 < dim0 d -> 0 < dim1 d -> dim2 X = dim2 d ->
  nn < dim0 X ->
  repeat_body np_corrcoef X d st nn
  = Return (set_item (fst st) nn (repeat_corr X d nn),
            Some (map fst (finite_pairs (row X nn) (row d 0)))).
Proof.
  intros Hc H0 H1 H2 Hnn. unfold repeat_body.
  rewrite (slice3_in_range X nn) by lia. cbn [bind].
  rewrite (slice3_in_range d 0) by lia. cbn [bind].
  rewrite masked_pair_same_length by (rewrite !row_length; exact H2).
  cbn [bind fst snd]. reflexivity.
Qed.

Lemma repeat_loop_value (X d : ndarray3) (x : option (list float)) :
  dim1 X = 1 -> 0 < dim0 d -> 0 < dim1 d -> dim2 X = dim2 d ->
  1 <= dim0 X ->
  for_each (repeat_body np_corrcoef X d) (seq 0 (dim0 X))
    (np_zeros (dim0 X), x)
  = Return (repeat_corrs X d, Some (last_pair_samples X d)).
Proof.
  intros Hc H0 H1 H2 Hr.
  change (np_zeros (dim0 X)) with ([] ++ np_zeros (dim0 X)).
  rewrite (for_each_fill (repeat_body np_corrcoef X d) (repeat_corr X d)
             (fun nn => Some (map fst (finite_pairs (row X nn) (row d 0))))
             (dim0 X) 0 [] x eq_refl).
  - unfold repeat_corrs, last_pair_samples. cbn [app].
    destruct (dim0 X) as [|r]; [lia|].
    replace (S r - 1) with (0 + r) by lia. reflexivity.
  - intros st nn Hnn. apply repeat_body_value; auto; lia.
Qed.

(** An epoch that passes both gates: finite prediction data and a
    reliability above zero. *)
Lemma ceiling_body_contributes (resp : signal) (N : Z) (st : ceiling_state)
    (k : string) (d : ndarray3) (s s' : nat) (rac : pyval) :
  let X := extract_epoch resp k in
  0 < count_finite3 d ->
  dim1 X = 1 -> dim2 X = dim2 d ->
  _r_single np_corrcoef np_mean uniform X N s = (Return rac, s') ->
  py_gt0 rac = true ->
  ceiling_body np_corrcoef np_mean uniform resp N st (k, d) s
  = (Return {| rnorm_c := py_add (rnorm_c st) (NpFloat (epoch_term X d rac));
               n_total := (n_total st + sample_count X d)%Z;
               X1_local := Some (last_pair_samples X d) |}, s').
Proof.
  intros X Hfin Hc Ht Hrac Hpos. unfold ceiling_body. cbn [fst snd].
  destruct (Nat.ltb_spec 0 (count_finite3 d)); [|lia].
  fold X. unfold bindM at 1. rewrite Hrac, Hpos.
  assert (Hr : 2 <= dim0 X).
  { destruct (le_lt_dec (dim0 X) 1) as [L|L]; [|lia].
    rewrite r_single_few_repeats in Hrac by lia.
    inversion Hrac; subst. discriminate Hpos. }
  destruct (count_finite3_dims d Hfin) as [H0 H1].
  unfold bindM, lift.
  rewrite (repeat_loop_value X d (X1_local st)) by (auto; lia).
  cbn [read_local snd fst]. unfold ret, epoch_term, sample_count.
  unfold last_pair_samples. rewrite length_map. reflexivity.
Qed.

(** An epoch without finite prediction data is skipped. *)
Lemma ceiling_body_no_data (resp : signal) (N : Z) (st : ceiling_state)
    (k : string) (d : ndarray3) (s : nat) :
  count_finite3 d = 0 ->
  ceiling_body np_corrcoef np_mean uniform resp N st (k, d) s
  = (Return st, s).
Proof.
  intros H. unfold ceiling_body. cbn [fst snd]. rewrite H. reflexivity.
Qed.

(** An epoch whose reliability is not above zero is skipped. *)
Lemma ceiling_body_unreliable (resp : signal) (N : Z) (st : ceiling_state)
    (k : string) (d : ndarray3) (s s' : nat) (rac : pyval) :
  0 < count_finite3 d ->
  _r_single np_corrcoef np_mean uniform (extract_epoch resp k) N s
  = (Return rac, s') ->
  py_gt0 rac = false ->
  ceiling_body np_corrcoef np_mean uniform resp N st (k, d) s
  = (Return st, s').
Proof.
  intros Hfin Hrac Hpos. unfold ceiling_body. cbn [fst snd].
  destruct (Nat.ltb_spec 0 (count_finite3 d)); [|lia].
  unfold bindM. rewrite Hrac, Hpos. reflexivity.
Qed.

End CeilingFacts.

Lemma for_each_ext {A S} (f g : S -> A -> outcome S) (l : list A) :
  (forall st a, f st a = g st a) ->
  forall st, for_each f l st = for_each g l st.
Proof.
  intros H. induction l as [|a l IH]; intros st; simpl; [reflexivity|].
  rewrite H. destruct (g st a); simpl; auto.
Qed.

Lemma for_eachM_app {A S} (body : S -> A -> M S) (l1 l2 : list A) :
  forall st s,
    for_eachM body (l1 ++ l2) st s
    = match for_eachM body l1 st s with
      | (Return st', s') => for_eachM body l2 st' s'
      | (Raise e, s') => (Raise e, s')
      end.
Proof.
  induction l1 as [|a l1 IH]; intros st s; simpl; [reflexivity|].
  unfold bindM. destruct (body st a s) as [[st1|e] s1]; [|reflexivity].
  apply IH.
Qed.

(** The epochs of a prediction signal, folded. *)
Definition folded_prediction (pred : signal) : list (string * ndarray3) :=
  extract_epochs pred (epoch_names_matching (epochs pred) "STIM_").

(** The loop of [r_ceiling] over the folded prediction. *)
Definition ceiling_loop (np_corrcoef : list float -> list float -> float)
    (np_mean : list float -> float) (uniform : nat -> float)
    (resp : signal) (N : Z) (folded : list (string * ndarray3))
  : M ceiling_state :=
  for_eachM (ceiling_body np_corrcoef np_mean uniform resp N) folded
    ceiling_init.

(** [r_ceiling] is its loop followed by the division of the weighted sum
    by the sample total. *)
Lemma r_ceiling_unfold
    (np_corrcoef : list float -> list float -> float)
    (np_mean : list float -> float) (uniform : nat -> float)
    (pred pred' resp resp' : signal) (N : Z) (s : nat) :
  r_ceiling np_corrcoef np_mean uniform
    (mk_recording pred resp') (mk_recording pred' resp) "pred" "resp" N s
  = match ceiling_loop np_corrcoef np_mean uniform resp N
            (folded_prediction pred) s with
    | (Return st, s') => (py_div (rnorm_c st) (n_total st), s')
    | (Raise e, s') => (Raise e, s')
    end.
Proof.
  unfold r_ceiling, ceiling_loop, folded_prediction, rasterize.
  unfold bindM at 1. unfold lift at 1. rewrite getitem_pred.
  unfold bindM at 1. unfold lift at 1. rewrite getitem_resp.
  unfold bindM, lift. reflexivity.
Qed.

(** C1.  For an epoch whose folded prediction holds a finite sample and
    whose raster (one channel, as long as the prediction) has a
    reliability [rac > 0], the loop body adds [(rs / sqrt(rac)) * count]
    to the weighted sum and [count] to the sample total, where [rs] is
    the mean of the per-repeat correlations and [count] the number of
    jointly finite samples of the last repeat and the prediction; and the
    value of [r_ceiling] is the weighted sum divided by the sample total
    at the end of the loop. *)
Theorem r_ceiling_weighted_mean :
  forall (np_corrcoef : list float -> list float -> float)
         (np_mean : list float -> float) (uniform : nat -> float)
         (pred pred' resp resp' : signal) (N : Z) (st : ceiling_state)
         (k : string) (d : ndarray3) (s s' s0 : nat) (rac : pyval),
    let X := extract_epoch resp k in
    0 < count_finite3 d ->
    dim1 X = 1 -> dim2 X = dim2 d ->
    _r_single np_corrcoef np_mean uniform X N s = (Return rac, s') ->
    py_gt0 rac = true ->
    ceiling_body np_corrcoef np_mean uniform resp N st (k, d) s
    = (Return
         {| rnorm_c :=
              py_add (rnorm_c st)
                (NpFloat
                   (F64.mul
                      (F64.div (np_mean (repeat_corrs np_corrcoef X d))
                               (F64.sqrt (to_float rac)))
                      (F64.of_Z (sample_count X d))));
            n_total := (n_total st + sample_count X d)%Z;
            X1_local := Some (last_pair_samples X d) |}, s')
    /\ sample_count X d
       = Z.of_nat (length (filter both_finite
                             (combine (row X (dim0 X - 1)) (row d 0))))
    /\ r_ceiling np_corrcoef np_mean uniform
         (mk_recording pred resp') (mk_recording pred' resp) "pred" "resp"
         N s0
       = match ceiling_loop np_corrcoef np_mean uniform resp N
                 (folded_prediction pred) s0 with
         | (Return stf, sf) => (py_div (rnorm_c stf) (n_total stf), sf)
         | (Raise e, sf) => (Raise e, sf)
         end.
Proof.
  intros f mean u pred pred' resp resp' N st k d s s' s0 rac X
    Hfin Hc Ht Hrac Hpos.
  split; [|split].
  - apply (ceiling_body_contributes f mean u resp N st k d s s' rac);
      assumption.
  - reflexivity.
  - apply r_ceiling_unfold.
Qed.

(** The run of the loop of [r_ceiling] over [folded], started with the
    generator in state [s], adds no epoch: each epoch in turn either has
    no finite prediction sample, and then its raster is not read and the
    generator is left as it is, or has a reliability, as [_r_single]
    returns it from the state the generator is in by then, that is not
    above zero. *)
Fixpoint no_epoch_added (np_corrcoef : list float -> list float -> float)
    (np_mean : list float -> float) (uniform : nat -> float)
    (resp : signal) (N : Z) (folded : list (string * ndarray3)) (s : nat)
  : bool :=
  match folded with
  | [] => true
  | (k, d) :: rest =>
      if 0 <? count_finite3 d then
        match _r_single np_corrcoef np_mean uniform (extract_epoch resp k) N s
        with
        | (Return rac, s') =>
            negb (py_gt0 rac)
            && no_epoch_added np_corrcoef np_mean uniform resp N rest s'
        | (Raise _, _) => false
        end
      else no_epoch_added np_corrcoef np_mean uniform resp N rest s
  end.

Lemma ceiling_loop_no_epoch_added
    (np_corrcoef : list float -> list float -> float)
    (np_mean : list float -> float) (uniform : nat -> float)
    (resp : signal) (N : Z) (folded : list (string * ndarray3)) :
  forall st s,
    no_epoch_added np_corrcoef np_mean uniform resp N folded s = true ->
    fst (for_eachM (ceiling_body np_corrcoef np_mean uniform resp N)
           folded st s)
    = Return st.
Proof.
  induction folded as [|[k d] l IH]; intros st s H; [reflexivity|].
  cbn [no_epoch_added] in H. cbn [for_eachM]. unfold bindM.
  destruct (Nat.ltb_spec 0 (count_finite3 d)) as [P|P].
  - destruct (_r_single np_corrcoef np_mean uniform (extract_epoch resp k) N s)
      as [[rac|e] s1] eqn:E; [|discriminate H].
    apply andb_true_iff in H. destruct H as [Hg Hl].
    apply negb_true_iff in Hg.
    rewrite (ceiling_body_unreliable np_corrcoef np_mean uniform
               resp N st k d s s1 rac P E Hg).
    apply IH. exact Hl.
  - rewrite ceiling_body_no_data by lia. apply IH. exact H.
Qed.

(** C7 (as amended).  When no epoch passes both gates in the run (each in
    turn has no finite prediction sample, or a reliability, as
    [_r_single] returns it in that run, that is not above zero), the
    weighted sum and the sample total are still the integers 0 at the end
    of the loop and the final division raises [ZeroDivisionError]. *)
Theorem r_ceiling_raises_without_epoch :
  forall (np_corrcoef : list float -> list float -> float)
         (np_mean : list float -> float) (uniform : nat -> float)
         (pred pred' resp resp' : signal) (N : Z) (s : nat),
    no_epoch_added np_corrcoef np_mean uniform resp N
      (folded_prediction pred) s = true ->
    fst (ceiling_loop np_corrcoef np_mean uniform resp N
           (folded_prediction pred) s)
    = Return {| rnorm_c := PyInt 0; n_total := 0%Z; X1_local := None |}
    /\ fst (r_ceiling np_corrcoef np_mean uniform
              (mk_recording pred resp') (mk_recording pred' resp)
              "pred" "resp" N s)
       = Raise ZeroDivisionError.
Proof.
  intros f mean u pred pred' resp resp' N s H.
  pose proof (ceiling_loop_no_epoch_added f mean u resp N
                (folded_prediction pred) ceiling_init s H) as E.
  split; [exact E|].
  rewrite r_ceiling_unfold. unfold ceiling_loop.
  destruct (for_eachM (ceiling_body f mean u resp N)
              (folded_prediction pred) ceiling_init s) as [o s'].
  cbn [fst] in E. subst o. reflexivity.
Qed.

(** Whenever some epoch has been added, the weighted sum is a
    [np.float64] and the final division returns, whatever the total. *)
Lemma py_div_np_float (x : float) (n : Z) :
  py_div (NpFloat x) n = Return (NpFloat (F64.div x (F64.of_Z n))).
Proof. reflexivity. Qed.

Lemma py_add_np_float (a : pyval) (x : float) :
  py_add a (NpFloat x) = NpFloat (F64.add (to_float a) x).
Proof. destruct a; reflexivity. Qed.

(* ------------------------------------------------------------------ *)
(** ** Only the first occurrence of an epoch is read *)

Lemma row_first_occurrence (d d' : ndarray3) :
  dim2 d = dim2 d' ->
  (forall t, t < dim2 d -> get3 d 0 0 t = get3 d' 0 0 t) ->
  row d 0 = row d' 0.
Proof.
  intros H2 H. unfold row. rewrite <- H2. apply map_ext_in.
  intros t Ht. apply in_seq in Ht. apply H. lia.
Qed.

Lemma ceiling_body_first_occurrence
    (np_corrcoef : list float -> list float -> float)
    (np_mean : list float -> float) (uniform : nat -> float)
    (resp : signal) (N : Z) (st : ceiling_state) (k : string)
    (d d' : ndarray3) (s : nat) :
  dim2 d = dim2 d' ->
  (forall t, t < dim2 d -> get3 d 0 0 t = get3 d' 0 0 t) ->
  (0 <? count_finite3 d) = (0 <? count_finite3 d') ->
  ceiling_body np_corrcoef np_mean uniform resp N st (k, d) s
  = ceiling_body np_corrcoef np_mean uniform resp N st (k, d') s.
Proof.
  intros H2 Hrow Hgate. unfold ceiling_body. cbn [fst snd].
  rewrite <- Hgate. destruct (Nat.ltb_spec 0 (count_finite3 d)) as [P|P];
    [|reflexivity].
  assert (P' : 0 < count_finite3 d').
  { symmetry in Hgate. apply Nat.ltb_lt in Hgate. exact Hgate. }
  destruct (count_finite3_dims d P) as [A0 A1].
  destruct (count_finite3_dims d' P') as [B0 B1].
  unfold bindM, lift.
  destruct (_r_single np_corrcoef np_mean uniform (extract_epoch resp k) N s)
    as [[rac|e] s1]; [|reflexivity].
  destruct (py_gt0 rac); [|reflexivity].
  rewrite (for_each_ext (repeat_body np_corrcoef (extract_epoch resp k) d)
             (repeat_body np_corrcoef (extract_epoch resp k) d')).
  - reflexivity.
  - intros [rs x] nn. unfold repeat_body.
    destruct (slice3 (extract_epoch resp k) nn 0); [|reflexivity].
    cbn [bind]. rewrite (slice3_in_range d 0), (slice3_in_range d' 0) by lia.
    rewrite (row_first_occurrence d d' H2 Hrow). reflexivity.
Qed.

Lemma ceiling_loop_first_occurrence
    (np_corrcoef : list float -> list float -> float)
    (np_mean : list float -> float) (uniform : nat -> float)
    (resp : signal) (N : Z) (e e' : string -> ndarray3)
    (names : list string) :
  (forall k, In k names ->
     dim2 (e k) = dim2 (e' k)
     /\ (forall t, t < dim2 (e k) -> get3 (e k) 0 0 t = get3 (e' k) 0 0 t)
     /\ (0 <? count_finite3 (e k)) = (0 <? count_finite3 (e' k))) ->
  forall st s,
    for_eachM (ceiling_body np_corrcoef np_mean uniform resp N)
      (map (fun k => (k, e k)) names) st s
    = for_eachM (ceiling_body np_corrcoef np_mean uniform resp N)
        (map (fun k => (k, e' k)) names) st s.
Proof.
  induction names as [|k names IH]; intros H st s; simpl; [reflexivity|].
  unfold bindM.
  destruct (H k (or_introl eq_refl)) as [H2 [Hrow Hgate]].
  rewrite (ceiling_body_first_occurrence np_corrcoef np_mean uniform resp N
             st k (e k) (e' k) s H2 Hrow Hgate).
  destruct (ceiling_body np_corrcoef np_mean uniform resp N st (k, e' k) s)
    as [[st1|ex] s1]; [|reflexivity].
  apply IH. intros k0 Hk0. apply H. right. exact Hk0.
Qed.

(** C10.  For an epoch of the folded prediction that passes both gates,
    reached by the loop in state [st], [r_ceiling] correlates each repeat
    [X[nn, 0, :]] of the response raster with the first occurrence
    [d[0, 0, :]] of the prediction over their jointly finite samples: the
    mean of these correlations, divided by [sqrt(rac)] and weighted by
    the number of jointly finite samples of the last repeat and
    [d[0, 0, :]], is what the epoch adds to the weighted sum, and the
    result of [r_ceiling] is that of the rest of the loop from there.  No
    other occurrence is read: a prediction with the same epoch names
    whose folded arrays agree with these on the first occurrence (and on
    whether they hold a finite sample at all) gives the same result. *)
Theorem r_ceiling_correlates_first_occurrence :
  forall (np_corrcoef : list float -> list float -> float)
         (np_mean : list float -> float) (uniform : nat -> float)
         (pred pred2 pred' resp resp' : signal) (N : Z)
         (pre post : list (string * ndarray3)) (k : string) (d : ndarray3)
         (st : ceiling_state) (s s1 s2 : nat) (rac : pyval),
    let X := extract_epoch resp k in
    let first := map (get3 d 0 0) (seq 0 (dim2 d)) in
    let rep := fun nn => map (get3 X nn 0) (seq 0 (dim2 X)) in
    let corr := fun nn =>
      np_corrcoef (map fst (filter both_finite (combine (rep nn) first)))
                  (map snd (filter both_finite (combine (rep nn) first))) in
    let rs := np_mean (map corr (seq 0 (dim0 X))) in
    let X1 := map fst (filter both_finite
                         (combine (rep (dim0 X - 1)) first)) in
    let count := Z.of_nat (length X1) in
    folded_prediction pred = pre ++ (k, d) :: post ->
    for_eachM (ceiling_body np_corrcoef np_mean uniform resp N)
      pre ceiling_init s = (Return st, s1) ->
    0 < count_finite3 d ->
    dim1 X = 1 -> dim2 X = dim2 d ->
    _r_single np_corrcoef np_mean uniform X N s1 = (Return rac, s2) ->
    py_gt0 rac = true ->
    epochs pred = epochs pred2 ->
    (forall k0,
       dim2 (extract_epoch pred k0) = dim2 (extract_epoch pred2 k0)
       /\ (forall t, t < dim2 (extract_epoch pred k0) ->
             get3 (extract_epoch pred k0) 0 0 t
             = get3 (extract_epoch pred2 k0) 0 0 t)
       /\ (0 <? count_finite3 (extract_epoch pred k0))
          = (0 <? count_finite3 (extract_epoch pred2 k0))) ->
    r_ceiling np_corrcoef np_mean uniform
      (mk_recording pred resp') (mk_recording pred' resp) "pred" "resp" N s
    = match
        for_eachM (ceiling_body np_corrcoef np_mean uniform resp N) post
          {| rnorm_c :=
               py_add (rnorm_c st)
                 (NpFloat (F64.mul (F64.div rs (F64.sqrt (to_float rac)))
                                   (F64.of_Z count)));
             n_total := (n_total st + count)%Z;
             X1_local := Some X1 |} s2
      with
      | (Return stf, sf) => (py_div (rnorm_c stf) (n_total stf), sf)
      | (Raise e, sf) => (Raise e, sf)
      end
    /\ r_ceiling np_corrcoef np_mean uniform
         (mk_recording pred2 resp') (mk_recording pred' resp) "pred" "resp"
         N s
       = r_ceiling np_corrcoef np_mean uniform
           (mk_recording pred resp') (mk_recording pred' resp) "pred" "resp"
           N s.
Proof.
  intros f mean u pred pred2 pred' resp resp' N pre post k d st s s1 s2 rac
    X first rep corr rs X1 count Hfold Hpre Hfin Hc Ht Hrac Hpos He Hagree.
  split.
  - rewrite r_ceiling_unfold. unfold ceiling_loop. rewrite Hfold.
    rewrite for_eachM_app, Hpre. cbn [for_eachM]. unfold bindM at 1.
    rewrite (ceiling_body_contributes f mean u resp N st k d s1 s2 rac
               Hfin Hc Ht Hrac Hpos).
    fold X. unfold epoch_term, sample_count, last_pair_samples, repeat_corrs,
      repeat_corr, finite_pairs, row.
    assert (Hn : count
                 = Z.of_nat
                     (length (filter both_finite
                                (combine
                                   (map (get3 X (dim0 X - 1) 0)
                                        (seq 0 (dim2 X)))
                                   (map (get3 d 0 0) (seq 0 (dim2 d)))))))
      by (unfold count, X1, rep, first; rewrite length_map; reflexivity).
    rewrite Hn. reflexivity.
  - rewrite !r_ceiling_unfold. unfold ceiling_loop, folded_prediction.
    rewrite <- He. unfold extract_epochs.
    rewrite (ceiling_loop_first_occurrence f mean u resp N
               (extract_epoch pred) (extract_epoch pred2)).
    + reflexivity.
    + intros k0 _. apply Hagree.
Qed.

(* ------------------------------------------------------------------ *)
(** ** r_floor: the correlation of shuffled data *)

(** An index a one-dimensional array of length [len] accepts. *)
Definition index_ok (len : nat) (z : Z) : Prop :=
  (- Z.of_nat len <= z < Z.of_nat len)%Z.

(** [v[z]] for an accepted index. *)
Definition pick (v : list float) (z : Z) : float :=
  nth (Z.to_nat (if (z <? 0)%Z then Z.of_nat (length v) + z else z)) v F64.nan.

Lemma get_item_Z_ok (v : list float) (z : Z) :
  index_ok (length v) z -> get_item_Z v z = Return (pick v z).
Proof.
  unfold index_ok, get_item_Z, pick. intros H.
  destruct (Z.ltb_spec z 0) as [Hn|Hn].
  - destruct (Z.leb_spec 0 z); [lia|]. cbn [andb].
    destruct (Z.leb_spec (- Z.of_nat (length v)) z); [|lia]. cbn [andb].
    apply get_item_in_range. lia.
  - destruct (Z.leb_spec 0 z); [|lia].
    destruct (Z.ltb_spec z (Z.of_nat (length v))); [|lia]. cbn [andb].
    apply get_item_in_range. lia.
Qed.

Lemma take_ok (v : list float) (idx : list Z) :
  Forall (index_ok (length v)) idx -> take v idx = Return (map (pick v) idx).
Proof.
  induction 1 as [|z idx Hz Hidx IH]; simpl; [reflexivity|].
  rewrite get_item_Z_ok by exact Hz. cbn [bind]. rewrite IH. reflexivity.
Qed.

(** A loop that stores at index [nn] a value computed from the state of
    the generator, each pass drawing [c] variates. *)
Lemma for_eachM_fill (body : list float -> nat -> M (list float))
    (f : nat -> float) (c m : nat) :
  forall (k : nat) (pre : list float) (s : nat),
    length pre = k ->
    (forall a nn s0, k <= nn < k + m ->
       body a nn s0 = (Return (set_item a nn (f s0)), s0 + c)) ->
    for_eachM body (seq k m) (pre ++ np_zeros m) s
    = (Return (pre ++ map (fun j => f (s + c * j)) (seq 0 m)), s + c * m).
Proof.
  induction m as [|m IH]; intros k pre s Hk Hb.
  - simpl. unfold ret. rewrite Nat.mul_0_r, Nat.add_0_r. reflexivity.
  - change (np_zeros (S m)) with (F64.zero :: np_zeros m).
    cbn [seq for_eachM]. unfold bindM. rewrite Hb by lia. subst k.
    rewrite set_item_middle.
    change (pre ++ f s :: np_zeros m) with (pre ++ [f s] ++ np_zeros m).
    rewrite app_assoc.
    rewrite (IH (S (length pre)) (pre ++ [f s]) (s + c)).
    + rewrite <- app_assoc. cbn [app map seq].
      rewrite Nat.mul_0_r, Nat.add_0_r.
      rewrite <- seq_shift, map_map. f_equal; [|lia]. f_equal. f_equal.
      f_equal. apply map_ext. intros j. f_equal. lia.
    + rewrite length_app. simpl. lia.
    + intros a nn s0 Hnn. apply Hb. lia.
Qed.

Section FloorFacts.

Variable np_corrcoef : list float -> list float -> float.
Variable uniform : nat -> float.

(** The resample of [v] that the draws from position [s0] on select. *)
Definition resample (v : list float) (n s0 : nat) : list float :=
  map (fun i => pick v (astype_int (F64.mul (uniform i) (F64.of_nat (length v)))))
    (seq s0 n).

(** The result of the shuffle that starts with the generator at [s0]:
    [n] draws index the prediction, the next [n] the response. *)
Definition floor_trial (X1 X2 : list float) (n s0 : nat) : float :=
  np_corrcoef (resample X1 n s0) (resample X2 n (s0 + n)).

(** The results of the [trials] shuffles, starting at [s]. *)
Definition floor_trials (X1 X2 : list float) (n trials s : nat) : list float :=
  map (fun rr => floor_trial X1 X2 n (s + 2 * n * rr)) (seq 0 trials).

(** Every variate, scaled by [len] and truncated, is an accepted index. *)
Definition draws_in_range (len : nat) : Prop :=
  forall i, index_ok len
              (astype_int (F64.mul (uniform i) (F64.of_nat len))).

Lemma random_indices_value (n len s : nat) :
  random_indices uniform n len s
  = (Return (map (fun i => astype_int (F64.mul (uniform i) (F64.of_nat len)))
               (seq s n)), s + n).
Proof.
  unfold random_indices, bindM, np_random_rand, ret. rewrite map_map.
  reflexivity.
Qed.

Lemma floor_body_value (X1 X2 rf : list float) (n rr s0 : nat) :
  (0 < n -> draws_in_range (length X1)) ->
  (0 < n -> draws_in_range (length X2)) ->
  floor_body np_corrcoef uniform X1 X2 n rf rr s0
  = (Return (set_item rf rr (floor_trial X1 X2 n s0)), s0 + 2 * n).
Proof.
  intros H1 H2. unfold floor_body. unfold bindM at 1.
  rewrite random_indices_value. unfold bindM at 1.
  rewrite random_indices_value. unfold bindM, lift.
  rewrite take_ok, take_ok.
  - unfold ret, floor_trial, resample. rewrite !map_map.
    f_equal. lia.
  - apply Forall_forall. intros z Hz. apply in_map_iff in Hz.
    destruct Hz as [i [E Hi]]. subst z. apply in_seq in Hi.
    apply H2. lia.
  - apply Forall_forall. intros z Hz. apply in_map_iff in Hz.
    destruct Hz as [i [E Hi]]. subst z. apply in_seq in Hi.
    apply H1. lia.
Qed.

End FloorFacts.

(** [np.int(count * 0.95)] is the floor of [0.95 * count] for every
    count up to the number of shuffles. *)
Definition percentile_index_checked (c : nat) : bool :=
  match F64.trunc (F64.mul (F64.of_nat c) F64.c0_95) with
  | Some z => (z =? Z.of_nat (95 * c / 100))%Z
  | None => false
  end.

Lemma percentile_index_table :
  forallb percentile_index_checked (seq 0 1001) = true.
Proof. vm_compute. reflexivity. Qed.

Lemma percentile_index (c : nat) :
  c <= 1000 ->
  np_int (F64.mul (F64.of_nat c) F64.c0_95) = Return (Z.of_nat (95 * c / 100)).
Proof.
  intros H. pose proof percentile_index_table as T.
  rewrite forallb_forall in T. specialize (T c).
  assert (I : In c (seq 0 1001)) by (apply in_seq; lia).
  specialize (T I). unfold percentile_index_checked in T. unfold np_int.
  destruct (F64.trunc (F64.mul (F64.of_nat c) F64.c0_95)); [|discriminate].
  apply Z.eqb_eq in T. subst. reflexivity.
Qed.

Lemma filter_length_le {A} (p : A -> bool) (l : list A) :
  length (filter p l) <= length l.
Proof.
  induction l as [|x l IH]; simpl; [lia|]. destruct (p x); simpl; lia.
Qed.

Lemma floor_trials_length
    (np_corrcoef : list float -> list float -> float) (uniform : nat -> float)
    (X1 X2 : list float) (n trials s : nat) :
  length (floor_trials np_corrcoef uniform X1 X2 n trials s) = trials.
Proof. unfold floor_trials. rewrite length_map, length_seq. reflexivity. Qed.

(** C3.  On two single-channel signals of the same length, [r_floor]
    keeps the jointly finite positions, takes [n = min(500, len)] samples
    per shuffle, runs exactly 1000 shuffles, drops the results that are
    not finite, sorts the rest ascending and returns the entry at index
    [floor(0.95 * count)], or the integer 0 when no result is finite.
    The variates of the generator are assumed to scale to valid indices,
    as those of [np.random.rand], which lie in [0, 1), do. *)
Theorem r_floor_percentile :
  forall (np_corrcoef : list float -> list float -> float)
         (uniform : nat -> float) (a b : list float) (s : nat),
    length a = length b ->
    let X1 := map fst (filter both_finite (combine a b)) in
    let X2 := map snd (filter both_finite (combine a b)) in
    let n := Nat.min 500 (length X1) in
    (0 < n -> draws_in_range uniform (length X1)) ->
    let rf := floor_trials np_corrcoef uniform X1 X2 n 1000 s in
    let kept := np_sort (filter F64.is_finite rf) in
    length rf = 1000
    /\ Permutation kept (filter F64.is_finite rf)
    /\ Sorted le_float kept
    /\ r_floor np_corrcoef uniform (recording_of a b) "pred" "resp" s
       = (Return (match kept with
                  | [] => PyInt 0
                  | _ :: _ =>
                      NpFloat (nth (95 * length kept / 100) kept F64.nan)
                  end),
          s + 2 * n * 1000).
Proof.
  intros f u a b s H X1 X2 n Hdraw rf kept.
  assert (Hlen : length rf = 1000) by apply floor_trials_length.
  assert (HX : length X2 = length X1)
    by (unfold X1, X2; rewrite !length_map; reflexivity).
  split; [exact Hlen|]. split; [apply np_sort_perm|]. split.
  { apply np_sort_sorted. apply Forall_forall. intros x Hx.
    apply filter_In in Hx. apply finite_not_nan, Hx. }
  unfold r_floor, recording_of.
  unfold bindM at 1. unfold lift at 1. rewrite getitem_pred.
  unfold bindM at 1. unfold lift at 1. rewrite getitem_resp.
  cbn [as_continuous continuous_signal].
  change (1 <? nrows (of_row a)) with false. cbv iota.
  unfold bindM at 1. unfold lift at 1. rewrite (logical_and2_rows a b H).
  unfold bindM at 1. unfold lift at 1. rewrite (bool_index2_pred a b H).
  unfold bindM at 1. unfold lift at 1. rewrite (bool_index2_resp a b H).
  fold (finite_pairs a b) in X1, X2. fold X1. fold X2.
  replace (if 500 <? length X1 then 500 else length X1) with n
    by (unfold n; destruct (Nat.ltb_spec 500 (length X1)); lia).
  unfold bindM at 1.
  change (length (np_zeros 1000)) with 1000.
  change (np_zeros 1000) with ([] ++ np_zeros 1000).
  rewrite (for_eachM_fill (floor_body f u X1 X2 n)
             (floor_trial f u X1 X2 n) (2 * n) 1000 0 [] s eq_refl).
  - cbn [app]. fold (floor_trials f u X1 X2 n 1000 s). fold rf. fold kept.
    assert (Hk : length kept <= 1000).
    { unfold kept. rewrite (Permutation_length (np_sort_perm _)).
      rewrite <- Hlen. apply filter_length_le. }
    destruct kept as [|x kept'] eqn:Ek.
    + reflexivity.
    + change (0 <? length (x :: kept')) with true. cbv iota.
      unfold bindM at 1. unfold lift at 1.
      rewrite (percentile_index (length (x :: kept')) Hk).
      unfold bindM at 1. unfold lift at 1.
      rewrite get_item_Z_ok.
      * unfold ret, pick.
        destruct (Z.ltb_spec (Z.of_nat (95 * length (x :: kept') / 100)) 0);
          [lia|]. rewrite Nat2Z.id. reflexivity.
      * unfold index_ok. split; [lia|]. apply Nat2Z.inj_lt.
        apply Nat.Div0.div_lt_upper_bound. simpl length. lia.
  - intros rf0 nn s0 _. apply floor_body_value.
    + exact Hdraw.
    + rewrite HX. exact Hdraw.
Qed.

(* ------------------------------------------------------------------ *)
(** ** Sample data *)

Module Sample.

Definition f (z : Z) : float := F64.of_Z z.

(** A generator stream of period 17 with values in [0, 1). *)
Definition uniform_table : list float :=
  map (fun k => F64.div (F64.of_nat k) (F64.of_Z 17)) (seq 0 17).

Definition uniform (i : nat) : float :=
  nth ((5 * i + 3) mod 17) uniform_table F64.zero.

(** Scenario B of the specification: a prediction with one missing
    sample against a decreasing response. *)
Definition pred_b : list float := [f 1; f 2; F64.nan; f 4; f 5].
Definition resp_b : list float := [f 5; f 4; f 3; f 2; f 1].

Definition raster2 : ndarray3 := of_repeats 3 [[f 1; f 2; f 3]; [f 1; f 3; f 2]].
Definition raster3 : ndarray3 :=
  of_repeats 3 [[f 1; f 2; f 3]; [f 1; f 2; f 3]; [f 1; f 2; f 3]].


(** Three repeats whose last sample is missing. *)
Definition raster_gap : ndarray3 :=
  of_repeats 4 [[f 1; f 2; f 3; F64.nan]; [f 1; f 2; f 3; F64.nan];
                [f 1; f 2; f 3; F64.nan]].

Definition empty3 : ndarray3 :=
  {| dim0 := 0; dim1 := 1; dim2 := 0; get3 := fun _ _ _ => F64.nan |}.

(** A signal with the given epochs; its dense array plays no part. *)
Definition epoch_signal (names : list string) (e : string -> ndarray3)
  : signal :=
  {| as_continuous := of_row []; epochs := names; extract_epoch := e |}.

Definition by_name (a b : ndarray3) (k : string) : ndarray3 :=
  if String.eqb k "STIM_a" then a
  else if String.eqb k "STIM_b" then b
  else empty3.

End Sample.

Lemma sample_uniform_in_table (i : nat) :
  In (Sample.uniform i) Sample.uniform_table.
Proof.
  unfold Sample.uniform. apply nth_In.
  change (length Sample.uniform_table) with 17.
  apply Nat.mod_upper_bound. discriminate.
Qed.

Definition index_okb (len : nat) (z : Z) : bool :=
  (- Z.of_nat len <=? z)%Z && (z <? Z.of_nat len)%Z.

Lemma index_okb_ok (len : nat) (z : Z) :
  index_okb len z = true -> index_ok len z.
Proof.
  unfold index_okb, index_ok. intros H. apply andb_true_iff in H.
  destruct H as [A B]. apply Z.leb_le in A. apply Z.ltb_lt in B. lia.
Qed.

Lemma sample_draws_in_range : draws_in_range Sample.uniform 4.
Proof.
  intros i. apply index_okb_ok.
  assert (T : forallb (fun u => index_okb 4
                         (astype_int (F64.mul u (F64.of_nat 4))))
                Sample.uniform_table = true) by (vm_compute; reflexivity).
  rewrite forallb_forall in T. apply T, sample_uniform_in_table.
Qed.

(* ------------------------------------------------------------------ *)
(** ** The theorems at sample inputs *)

(** Scenario B: the mask drops the missing sample and the remaining four
    points are perfectly anti-correlated. *)
Lemma corrcoef_finite_mask_fallback_witness :
  length Sample.pred_b = length Sample.resp_b
  /\ corrcoef NumpyRef.np_corrcoef
       (recording_of Sample.pred_b Sample.resp_b) "pred" "resp"
     = Return (NpFloat (F64.of_Z (-1))).
Proof.
  split; [reflexivity|].
  rewrite (corrcoef_finite_mask_fallback NumpyRef.np_corrcoef
             Sample.pred_b Sample.resp_b eq_refl).
  vm_compute. reflexivity.
Defined.

(** C8, as stated, fails: [np.corrcoef] divides the covariance by the
    standard deviation of its first argument and then by that of its
    second, each quotient rounded, so the two orders can differ in the
    last bit.  For [2, 9, 1] and [4, 1, 7] they do. *)
Lemma corrcoef_swap_differs_in_last_bit :
  corrcoef NumpyRef.np_corrcoef
    (recording_of [Sample.f 2; Sample.f 9; Sample.f 1]
                  [Sample.f 4; Sample.f 1; Sample.f 7]) "pred" "resp"
  = Return (NpFloat (S754_finite true 8265572908579125 (-53)))
  /\ corrcoef NumpyRef.np_corrcoef
       (recording_of [Sample.f 4; Sample.f 1; Sample.f 7]
                     [Sample.f 2; Sample.f 9; Sample.f 1]) "pred" "resp"
     = Return (NpFloat (S754_finite true 8265572908579126 (-53)))
  /\ corrcoef NumpyRef.np_corrcoef
       (recording_of [Sample.f 2; Sample.f 9; Sample.f 1]
                     [Sample.f 4; Sample.f 1; Sample.f 7]) "pred" "resp"
     <> corrcoef NumpyRef.np_corrcoef
          (recording_of [Sample.f 4; Sample.f 1; Sample.f 7]
                        [Sample.f 2; Sample.f 9; Sample.f 1]) "pred" "resp".
Proof.
  split; [vm_compute; reflexivity|]. split; [vm_compute; reflexivity|].
  intros E. vm_compute in E. discriminate E.
Qed.

(** Scenario B in both orders: the same four points, perfectly
    anti-correlated either way. *)
Lemma corrcoef_swap_witness :
  length Sample.pred_b = length Sample.resp_b
  /\ corrcoef NumpyRef.np_corrcoef
       (recording_of Sample.resp_b Sample.pred_b) "pred" "resp"
     = Return (NpFloat (F64.of_Z (-1)))
  /\ corrcoef NumpyRef.np_corrcoef
       (recording_of Sample.pred_b Sample.resp_b) "pred" "resp"
     = corrcoef NumpyRef.np_corrcoef
         (recording_of Sample.resp_b Sample.pred_b) "pred" "resp".
Proof.
  split; [reflexivity|].
  destruct (corrcoef_swap NumpyRef.np_corrcoef
              Sample.pred_b Sample.resp_b eq_refl) as [_ [Eb Hiff]].
  split.
  - rewrite Eb. vm_compute. reflexivity.
  - apply Hiff. right. vm_compute. reflexivity.
Defined.

(** C5.  A response with two channels beside a single-channel prediction
    is not rejected with the multi-channel error: without a jointly
    finite position [corrcoef] returns 0, and with one the boolean index
    of the prediction raises [IndexError]. *)
Example corrcoef_multichannel_response :
  corrcoef NumpyRef.np_corrcoef
    (mk_recording
       (continuous_signal (of_row [F64.nan; F64.nan]))
       (continuous_signal
          (of_rows 2 [[Sample.f 1; Sample.f 2]; [Sample.f 3; Sample.f 4]])))
    "pred" "resp"
  = Return (PyInt 0)
  /\ corrcoef NumpyRef.np_corrcoef
       (mk_recording
          (continuous_signal (of_row [Sample.f 1; Sample.f 2]))
          (continuous_signal
             (of_rows 2 [[Sample.f 1; Sample.f 2]; [Sample.f 3; Sample.f 4]])))
       "pred" "resp"
     = Raise IndexError.
Proof. split; vm_compute; reflexivity. Qed.



Lemma r_single_two_repeats_raises_witness :
  dim1 Sample.raster2 = 1 /\ dim0 Sample.raster2 = 2 /\ (1 <= 100)%Z
  /\ _r_single NumpyRef.np_corrcoef NumpyRef.np_mean Sample.uniform
       Sample.raster2 100 0
     = (Raise (ValueError two_repeats_msg), 0).
Proof.
  split; [reflexivity|]. split; [reflexivity|]. split; [lia|].
  apply (r_single_two_repeats_raises NumpyRef.np_corrcoef NumpyRef.np_mean
           Sample.uniform Sample.raster2 100 0 eq_refl eq_refl).
  lia.
Defined.

Lemma r_single_unsupported_iff_witness :
  dim1 Sample.raster3 = 1
  /\ fst (_r_single NumpyRef.np_corrcoef NumpyRef.np_mean Sample.uniform
            Sample.raster3 1 0)
     = Raise (ValueError two_repeats_msg)
  /\ Z.min 1 (Z.of_nat (dim0 Sample.raster3 * (dim0 Sample.raster3 - 1) / 2))
     = 1%Z.
Proof.
  split; [reflexivity|].
  destruct (r_single_unsupported_iff NumpyRef.np_corrcoef NumpyRef.np_mean
              Sample.uniform Sample.raster3 1 0 eq_refl) as [I P].
  split.
  - apply P; [reflexivity|simpl; lia].
  - apply I. apply P; [reflexivity|simpl; lia].
Defined.

Module CeilingSample.

(** One epoch: a clean prediction and three identical repeats. *)
Definition pred_clean : signal :=
  Sample.epoch_signal ["STIM_a"%string]
    (fun _ => of_repeats 3 [[Sample.f 1; Sample.f 2; Sample.f 3]]).
Definition resp_clean : signal :=
  Sample.epoch_signal ["STIM_a"%string] (fun _ => Sample.raster3).

(** An epoch whose prediction is finite only where the response is
    missing. *)
Definition pred_gap : signal :=
  Sample.epoch_signal ["STIM_a"%string]
    (fun _ => of_repeats 4 [[F64.nan; F64.nan; F64.nan; Sample.f 5]]).
Definition resp_gap : signal :=
  Sample.epoch_signal ["STIM_a"%string] (fun _ => Sample.raster_gap).

End CeilingSample.

Lemma r_ceiling_weighted_mean_witness :
  ceiling_body NumpyRef.np_corrcoef NumpyRef.np_mean Sample.uniform
    CeilingSample.resp_clean 100 ceiling_init
    ("STIM_a"%string, extract_epoch CeilingSample.pred_clean "STIM_a") 0
  = (Return {| rnorm_c := NpFloat (Sample.f 3); n_total := 3%Z;
               X1_local := Some [Sample.f 1; Sample.f 2; Sample.f 3] |}, 3)
  /\ r_ceiling NumpyRef.np_corrcoef NumpyRef.np_mean Sample.uniform
       (mk_recording CeilingSample.pred_clean CeilingSample.resp_clean)
       (mk_recording CeilingSample.pred_clean CeilingSample.resp_clean)
       "pred" "resp" 100 0
     = (Return (NpFloat F64.one), 3).
Proof.
  destruct (r_ceiling_weighted_mean NumpyRef.np_corrcoef NumpyRef.np_mean
              Sample.uniform
              CeilingSample.pred_clean CeilingSample.pred_clean
              CeilingSample.resp_clean CeilingSample.resp_clean
              100 ceiling_init "STIM_a"
              (extract_epoch CeilingSample.pred_clean "STIM_a") 0 3 0
              (NpFloat F64.one))
    as [Hbody [_ Hfinal]].
  - vm_compute. lia.
  - reflexivity.
  - reflexivity.
  - vm_compute. reflexivity.
  - reflexivity.
  - split.
    + rewrite Hbody. vm_compute. reflexivity.
    + rewrite Hfinal. vm_compute. reflexivity.
Defined.

(** C7, as stated, fails: here one epoch passes both gates with no
    jointly finite sample in its last repeat, so the sample total is 0 at
    the end of the loop, but the weighted sum is a [np.float64] and the
    division returns NaN instead of raising. *)
Lemma r_ceiling_zero_total_returns_nan :
  ceiling_loop NumpyRef.np_corrcoef NumpyRef.np_mean Sample.uniform
    CeilingSample.resp_gap 100 (folded_prediction CeilingSample.pred_gap) 0
  = (Return {| rnorm_c := NpFloat F64.nan; n_total := 0%Z;
               X1_local := Some [] |}, 3)
  /\ r_ceiling NumpyRef.np_corrcoef NumpyRef.np_mean Sample.uniform
       (mk_recording CeilingSample.pred_gap CeilingSample.resp_gap)
       (mk_recording CeilingSample.pred_gap CeilingSample.resp_gap)
       "pred" "resp" 100 0
     = (Return (NpFloat F64.nan), 3).
Proof. split; vm_compute; reflexivity. Qed.

Module RunSample.

(** Two stimulus epochs under a cap of two pairs.  The first has no
    finite prediction sample.  The raster of the second has four repeats,
    one of them without variance: the pairs with that repeat have an
    undefined correlation, so its reliability depends on the pairs the
    shuffle selects. *)
Definition raster4 : ndarray3 :=
  of_repeats 3 [[Sample.f 1; Sample.f 2; Sample.f 3];
                [Sample.f 1; Sample.f 1; Sample.f 1];
                [Sample.f 1; Sample.f 2; Sample.f 3];
                [Sample.f 3; Sample.f 2; Sample.f 1]].
Definition pred_run : signal :=
  Sample.epoch_signal ["STIM_a"%string; "REFERENCE"%string; "STIM_b"%string]
    (Sample.by_name
       (of_repeats 3 [[F64.nan; F64.nan; F64.nan]])
       (of_repeats 3 [[Sample.f 1; Sample.f 2; Sample.f 3]])).
Definition resp_run : signal :=
  Sample.epoch_signal ["STIM_a"%string; "REFERENCE"%string; "STIM_b"%string]
    (Sample.by_name Sample.raster3 raster4).

(** An epoch folded with two occurrences that point in opposite
    directions, and a second version that differs in the second
    occurrence only. *)
Definition pred_up_down : signal :=
  Sample.epoch_signal ["STIM_a"%string]
    (fun _ => of_repeats 3 [[Sample.f 1; Sample.f 2; Sample.f 3];
                            [Sample.f 3; Sample.f 2; Sample.f 1]]).
Definition pred_up_gap : signal :=
  Sample.epoch_signal ["STIM_a"%string]
    (fun _ => of_repeats 3 [[Sample.f 1; Sample.f 2; Sample.f 3];
                            [F64.nan; Sample.f 0; Sample.f 5]]).

End RunSample.

(** From state 0 the shuffle selects the pairs (1, 2) and (0, 1), both
    with the repeat without variance: the reliability is NaN, the epoch
    is skipped and the division raises.  From state 2 the same raster has
    the reliability 0.05, which is above zero. *)
Lemma r_ceiling_raises_without_epoch_witness :
  no_epoch_added NumpyRef.np_corrcoef NumpyRef.np_mean Sample.uniform
    RunSample.resp_run 2 (folded_prediction RunSample.pred_run) 0 = true
  /\ r_ceiling NumpyRef.np_corrcoef NumpyRef.np_mean Sample.uniform
       (mk_recording RunSample.pred_run RunSample.resp_run)
       (mk_recording RunSample.pred_run RunSample.resp_run)
       "pred" "resp" 2 0
     = (Raise ZeroDivisionError, 6)
  /\ fst (r_ceiling NumpyRef.np_corrcoef NumpyRef.np_mean Sample.uniform
            (mk_recording RunSample.pred_run RunSample.resp_run)
            (mk_recording RunSample.pred_run RunSample.resp_run)
            "pred" "resp" 2 0)
     = Raise ZeroDivisionError
  /\ _r_single NumpyRef.np_corrcoef NumpyRef.np_mean Sample.uniform
       RunSample.raster4 2 0
     = (Return (NpFloat F64.nan), 6)
  /\ _r_single NumpyRef.np_corrcoef NumpyRef.np_mean Sample.uniform
       RunSample.raster4 2 2
     = (Return (PyFloat F64.c0_05), 8).
Proof.
  assert (H : no_epoch_added NumpyRef.np_corrcoef NumpyRef.np_mean
                Sample.uniform RunSample.resp_run 2
                (folded_prediction RunSample.pred_run) 0 = true)
    by (vm_compute; reflexivity).
  split; [exact H|].
  split; [vm_compute; reflexivity|].
  split.
  - apply (r_ceiling_raises_without_epoch NumpyRef.np_corrcoef
             NumpyRef.np_mean Sample.uniform
             RunSample.pred_run RunSample.pred_run
             RunSample.resp_run RunSample.resp_run 2 0 H).
  - split; vm_compute; reflexivity.
Defined.

(** The three repeats are correlated with the rising first occurrence,
    not with the falling second one: the result is 1, and it is the same
    when the second occurrence is replaced. *)
Lemma r_ceiling_correlates_first_occurrence_witness :
  folded_prediction RunSample.pred_up_down
  = [] ++ [("STIM_a"%string, extract_epoch RunSample.pred_up_down "STIM_a")]
  /\ _r_single NumpyRef.np_corrcoef NumpyRef.np_mean Sample.uniform
       (extract_epoch CeilingSample.resp_clean "STIM_a") 100 0
     = (Return (NpFloat F64.one), 3)
  /\ r_ceiling NumpyRef.np_corrcoef NumpyRef.np_mean Sample.uniform
       (mk_recording RunSample.pred_up_down CeilingSample.resp_clean)
       (mk_recording RunSample.pred_up_down CeilingSample.resp_clean)
       "pred" "resp" 100 0
     = (Return (NpFloat F64.one), 3)
  /\ r_ceiling NumpyRef.np_corrcoef NumpyRef.np_mean Sample.uniform
       (mk_recording RunSample.pred_up_gap CeilingSample.resp_clean)
       (mk_recording RunSample.pred_up_down CeilingSample.resp_clean)
       "pred" "resp" 100 0
     = r_ceiling NumpyRef.np_corrcoef NumpyRef.np_mean Sample.uniform
         (mk_recording RunSample.pred_up_down CeilingSample.resp_clean)
         (mk_recording RunSample.pred_up_down CeilingSample.resp_clean)
         "pred" "resp" 100 0.
Proof.
  assert (Hrac : _r_single NumpyRef.np_corrcoef NumpyRef.np_mean
                   Sample.uniform
                   (extract_epoch CeilingSample.resp_clean "STIM_a") 100 0
                 = (Return (NpFloat F64.one), 3))
    by (vm_compute; reflexivity).
  split; [reflexivity|]. split; [exact Hrac|].
  destruct (r_ceiling_correlates_first_occurrence NumpyRef.np_corrcoef
              NumpyRef.np_mean Sample.uniform
              RunSample.pred_up_down RunSample.pred_up_gap
              RunSample.pred_up_down CeilingSample.resp_clean
              CeilingSample.resp_clean 100 [] [] "STIM_a"
              (extract_epoch RunSample.pred_up_down "STIM_a")
              ceiling_init 0 0 3 (NpFloat F64.one))
    as [Hval Hsame].
  - reflexivity.
  - reflexivity.
  - vm_compute. lia.
  - reflexivity.
  - reflexivity.
  - exact Hrac.
  - reflexivity.
  - reflexivity.
  - intros k0. split; [reflexivity|]. split; [|reflexivity].
    intros t _. destruct t as [|[|[|t]]]; reflexivity.
  - split; [|exact Hsame].
    rewrite Hval. vm_compute. reflexivity.
Defined.

Lemma r_floor_percentile_witness :
  let X1 :=
    map fst (filter both_finite (combine Sample.pred_b Sample.resp_b)) in
  let X2 :=
    map snd (filter both_finite (combine Sample.pred_b Sample.resp_b)) in
  let rf := floor_trials NumpyRef.np_corrcoef Sample.uniform X1 X2 4 1000 0 in
  let kept := np_sort (filter F64.is_finite rf) in
  length Sample.pred_b = length Sample.resp_b
  /\ draws_in_range Sample.uniform 4
  /\ length rf = 1000
  /\ Permutation kept (filter F64.is_finite rf)
  /\ Sorted le_float kept
  /\ r_floor NumpyRef.np_corrcoef Sample.uniform
       (recording_of Sample.pred_b Sample.resp_b) "pred" "resp" 0
     = (Return (match kept with
                | [] => PyInt 0
                | _ :: _ =>
                    NpFloat (nth (95 * length kept / 100) kept F64.nan)
                end),
        0 + 2 * 4 * 1000).
Proof.
  intros X1 X2 rf kept.
  split; [reflexivity|]. split; [exact sample_draws_in_range|].
  exact (r_floor_percentile NumpyRef.np_corrcoef Sample.uniform
           Sample.pred_b Sample.resp_b 0 eq_refl
           (fun _ => sample_draws_in_range)).
Defined.

(* ------------------------------------------------------------------ *)
(** * Further properties of the estimators *)

(** ** corrcoef *)

Lemma combine_fst_snd {A B} (l : list (A * B)) :
  combine (map fst l) (map snd l) = l.
Proof.
  induction l as [|[x y] l IH]; simpl; [reflexivity|]. rewrite IH.
  reflexivity.
Qed.

Lemma filter_all {A} (p : A -> bool) (l : list A) :
  forallb p l = true -> filter p l = l.
Proof.
  induction l as [|x l IH]; simpl; [reflexivity|].
  intros H. apply andb_true_iff in H. destruct H as [Hx Hl].
  rewrite Hx, IH by exact Hl. reflexivity.
Qed.

Lemma forallb_filter {A} (p : A -> bool) (l : list A) :
  forallb p (filter p l) = true.
Proof.
  induction l as [|x l IH]; simpl; [reflexivity|].
  destruct (p x) eqn:E; simpl; [rewrite E|]; exact IH.
Qed.

(** Masking is idempotent: the jointly finite pairs of the masked
    sequences are those pairs again. *)
Lemma finite_pairs_idempotent (a b : list float) :
  finite_pairs (map fst (finite_pairs a b)) (map snd (finite_pairs a b))
  = finite_pairs a b.
Proof.
  unfold finite_pairs at 1. rewrite combine_fst_snd.
  apply filter_all. apply forallb_filter.
Qed.

Lemma finite_pairs_complete (a b : list float) :
  length a = length b ->
  forallb F64.is_finite a = true -> forallb F64.is_finite b = true ->
  finite_pairs a b = combine a b.
Proof.
  unfold finite_pairs. revert b.
  induction a as [|x a IH]; intros [|y b] H Ha Hb; simpl in *;
    try discriminate; [reflexivity|].
  apply andb_true_iff in Ha. apply andb_true_iff in Hb.
  destruct Ha as [Hx Ha]. destruct Hb as [Hy Hb].
  unfold both_finite at 1. cbn [fst snd]. rewrite Hx, Hy. cbn [andb].
  rewrite IH by (auto; lia). reflexivity.
Qed.

Lemma combine_map_fst {A B} (a : list A) (b : list B) :
  length a = length b -> map fst (combine a b) = a.
Proof.
  revert b. induction a as [|x a IH]; intros [|y b] H; simpl in *;
    try discriminate; [reflexivity|]. rewrite IH by lia. reflexivity.
Qed.

Lemma combine_map_snd {A B} (a : list A) (b : list B) :
  length a = length b -> map snd (combine a b) = b.
Proof.
  revert b. induction a as [|x a IH]; intros [|y b] H; simpl in *;
    try discriminate; [reflexivity|]. rewrite IH by lia. reflexivity.
Qed.

(** X1.  On complete data (two equally long, non-empty single-channel
    signals without a non-finite sample) [corrcoef] is
    [np.corrcoef(pred, resp)[0, 1]] of the data as they are. *)
Theorem corrcoef_complete_data :
  forall (np_corrcoef : list float -> list float -> float)
         (a b : list float),
    length a = length b -> 0 < length a ->
    forallb F64.is_finite a = true -> forallb F64.is_finite b = true ->
    corrcoef np_corrcoef (recording_of a b) "pred" "resp"
    = Return (NpFloat (np_corrcoef a b)).
Proof.
  intros f a b H Hpos Ha Hb. rewrite corrcoef_rows by exact H.
  rewrite (finite_pairs_complete a b H Ha Hb).
  rewrite combine_map_fst, combine_map_snd by exact H.
  rewrite length_combine, <- H, Nat.min_id.
  destruct (Nat.eqb_spec (length a) 0); [lia|reflexivity].
Qed.

Lemma corrcoef_complete_data_witness :
  length Sample.resp_b = length Sample.resp_b
  /\ 0 < length Sample.resp_b
  /\ forallb F64.is_finite Sample.resp_b = true
  /\ corrcoef NumpyRef.np_corrcoef
       (recording_of Sample.resp_b Sample.resp_b) "pred" "resp"
     = Return (NpFloat (NumpyRef.np_corrcoef Sample.resp_b Sample.resp_b)).
Proof.
  split; [reflexivity|]. split; [simpl; lia|]. split; [reflexivity|].
  apply (corrcoef_complete_data NumpyRef.np_corrcoef
           Sample.resp_b Sample.resp_b eq_refl);
    [simpl; lia|reflexivity|reflexivity].
Defined.

(** X2.  Missing samples are absent, not zero: [corrcoef] gives the same
    result on two signals as on their subsequences at the jointly finite
    positions. *)
Theorem corrcoef_drops_missing :
  forall (np_corrcoef : list float -> list float -> float)
         (a b : list float),
    length a = length b ->
    corrcoef np_corrcoef (recording_of a b) "pred" "resp"
    = corrcoef np_corrcoef
        (recording_of (map fst (finite_pairs a b))
                      (map snd (finite_pairs a b))) "pred" "resp".
Proof.
  intros f a b H. rewrite (corrcoef_rows f a b H).
  rewrite corrcoef_rows by (rewrite !length_map; reflexivity).
  rewrite finite_pairs_idempotent. reflexivity.
Qed.

Lemma corrcoef_drops_missing_witness :
  length Sample.pred_b = length Sample.resp_b
  /\ corrcoef NumpyRef.np_corrcoef
       (recording_of Sample.pred_b Sample.resp_b) "pred" "resp"
     = corrcoef NumpyRef.np_corrcoef
         (recording_of [Sample.f 1; Sample.f 2; Sample.f 4; Sample.f 5]
                       [Sample.f 5; Sample.f 4; Sample.f 2; Sample.f 1])
         "pred" "resp".
Proof.
  split; [reflexivity|].
  exact (corrcoef_drops_missing NumpyRef.np_corrcoef
           Sample.pred_b Sample.resp_b eq_refl).
Defined.

Lemma broadcast_dim_mismatch (m n : nat) :
  m <> n -> m <> 1 -> n <> 1 -> broadcast_dim m n = None.
Proof.
  intros H1 H2 H3. unfold broadcast_dim.
  destruct (Nat.eqb_spec m n); [contradiction|].
  destruct (Nat.eqb_spec m 1); [contradiction|].
  destruct (Nat.eqb_spec n 1); [contradiction|]. reflexivity.
Qed.

(** X3.  Two single-channel signals of different lengths, neither of
    length one, cannot be masked together: [corrcoef] raises the
    broadcasting [ValueError] of [np.isfinite(pred) & np.isfinite(resp)]. *)
Theorem corrcoef_length_mismatch :
  forall (np_corrcoef : list float -> list float -> float)
         (a b : list float),
    length a <> length b -> length a <> 1 -> length b <> 1 ->
    corrcoef np_corrcoef (recording_of a b) "pred" "resp"
    = Raise (ValueError broadcast_msg).
Proof.
  intros f a b H Ha Hb. unfold corrcoef, recording_of.
  rewrite getitem_pred, getitem_resp.
  cbn [bind as_continuous continuous_signal].
  change (1 <? nrows (of_row a)) with false. cbv iota.
  unfold logical_and2. cbn [nrows ncols map2 of_row].
  rewrite broadcast_dim_same, (broadcast_dim_mismatch _ _ H Ha Hb).
  reflexivity.
Qed.

Lemma corrcoef_length_mismatch_witness :
  length Sample.pred_b <> length [Sample.f 1; Sample.f 2]
  /\ corrcoef NumpyRef.np_corrcoef
       (recording_of Sample.pred_b [Sample.f 1; Sample.f 2]) "pred" "resp"
     = Raise (ValueError broadcast_msg).
Proof.
  split; [simpl; lia|].
  apply (corrcoef_length_mismatch NumpyRef.np_corrcoef
           Sample.pred_b [Sample.f 1; Sample.f 2]); simpl; lia.
Defined.

(** ** _r_single *)

(** X4.  The two nested loops of [_r_single] list every unordered pair
    of distinct repeats exactly once: the list has
    [comb(repcount, 2)] entries, no entry twice, and holds [(p1, p2)]
    exactly when [p1 < p2 < repcount]; so every index below [paircount]
    reads an entry of [pairs]. *)
Theorem all_pairs_enumeration :
  forall repcount : nat,
    length (all_pairs repcount) = comb2 repcount
    /\ NoDup (all_pairs repcount)
    /\ (forall p1 p2,
          In (p1, p2) (all_pairs repcount) <-> p1 < p2 < repcount).
Proof.
  intros r. split; [apply all_pairs_length|].
  split; [apply all_pairs_nodup|]. intros p1 p2. apply all_pairs_in.
Qed.

(** X5.  The shuffle samples without replacement: on a single-channel
    raster of two or more repeats whose reduced cap is neither one nor
    negative, [_r_single] averages the correlations of
    [min(N, paircount)] distinct pairs [p1 < p2] of repeats, and draws
    exactly [paircount] variates, whatever [N]. *)
Theorem r_single_samples_distinct_pairs :
  forall (np_corrcoef : list float -> list float -> float)
         (np_mean : list float -> float) (uniform : nat -> float)
         (X : ndarray3) (N : Z) (s : nat),
    dim1 X = 1 -> 2 <= dim0 X ->
    effective_N (dim0 X) N <> 1%Z -> (0 <= effective_N (dim0 X) N)%Z ->
    exists ps : list (nat * nat),
      length ps = Z.to_nat (effective_N (dim0 X) N)
      /\ NoDup ps
      /\ Forall (fun pr => fst pr < snd pr < dim0 X) ps
      /\ _r_single np_corrcoef np_mean uniform X N s
         = (Return (clamp (np_mean (map (pair_corr np_corrcoef X) ps))),
            s + comb2 (dim0 X)).
Proof.
  intros f mean u X N s Hc Hr Hne Hpos.
  exists (sampled_pairs (dim0 X) (map u (seq s (comb2 (dim0 X))))
            (Z.to_nat (effective_N (dim0 X) N))).
  destruct (sampled_pairs_spec (dim0 X) (Z.to_nat (effective_N (dim0 X) N))
              (map u (seq s (comb2 (dim0 X))))) as [L [ND F]].
  - rewrite length_map, length_seq. reflexivity.
  - unfold effective_N, comb2 in *. lia.
  - split; [exact L|]. split; [exact ND|]. split; [exact F|].
    apply r_single_value; assumption.
Qed.

Lemma r_single_samples_distinct_pairs_witness :
  dim1 Sample.raster3 = 1 /\ 2 <= dim0 Sample.raster3
  /\ exists ps : list (nat * nat),
       length ps = 3 /\ NoDup ps
       /\ Forall (fun pr => fst pr < snd pr < 3) ps
       /\ _r_single NumpyRef.np_corrcoef NumpyRef.np_mean Sample.uniform
            Sample.raster3 100 0
          = (Return (clamp (NumpyRef.np_mean
                              (map (pair_corr NumpyRef.np_corrcoef
                                      Sample.raster3) ps))), 3).
Proof.
  split; [reflexivity|]. split; [simpl; lia|].
  apply (r_single_samples_distinct_pairs NumpyRef.np_corrcoef
           NumpyRef.np_mean Sample.uniform Sample.raster3 100 0 eq_refl);
    [simpl; lia|vm_compute; discriminate|vm_compute; discriminate].
Defined.

Lemma map_nth_seq {A} (l : list A) (d : A) :
  map (fun i => nth i l d) (seq 0 (length l)) = l.
Proof.
  induction l as [|x l IH]; simpl; [reflexivity|].
  rewrite <- seq_shift, map_map. rewrite IH. reflexivity.
Qed.

Lemma sampled_pairs_all (repcount : nat) (u : list float) :
  length u = comb2 repcount ->
  Permutation (sampled_pairs repcount u (comb2 repcount))
              (all_pairs repcount).
Proof.
  intros Hu. unfold sampled_pairs.
  rewrite <- (map_map (fun nn => nth nn (np_argsort u) 0)
                (fun i => nth i (all_pairs repcount) (0, 0))).
  rewrite <- Hu, <- np_argsort_length, map_nth_seq.
  rewrite (Permutation_map _ (np_argsort_perm u)).
  rewrite Hu, <- all_pairs_length, map_nth_seq. reflexivity.
Qed.

(** X6.  With a cap that is not below the number of pairs (the default
    100 for up to 14 repeats), every pair of repeats is used once: the
    result of [_r_single] on three or more repeats is the clamped mean of
    the correlations of all pairs, in the order of the shuffle. *)
Theorem r_single_uses_every_pair :
  forall (np_corrcoef : list float -> list float -> float)
         (np_mean : list float -> float) (uniform : nat -> float)
         (X : ndarray3) (N : Z) (s : nat),
    dim1 X = 1 -> 3 <= dim0 X -> (Z.of_nat (comb2 (dim0 X)) <= N)%Z ->
    exists ps : list (nat * nat),
      Permutation ps (all_pairs (dim0 X))
      /\ _r_single np_corrcoef np_mean uniform X N s
         = (Return (clamp (np_mean (map (pair_corr np_corrcoef X) ps))),
            s + comb2 (dim0 X)).
Proof.
  intros f mean u X N s Hc Hr HN.
  assert (P : 3 <= comb2 (dim0 X)).
  { unfold comb2. apply Nat.div_le_lower_bound; [lia|]. nia. }
  assert (E : effective_N (dim0 X) N = Z.of_nat (comb2 (dim0 X))).
  { unfold effective_N, comb2 in *. lia. }
  exists (sampled_pairs (dim0 X) (map u (seq s (comb2 (dim0 X))))
            (comb2 (dim0 X))).
  split.
  - apply sampled_pairs_all. rewrite length_map, length_seq. reflexivity.
  - rewrite r_single_value by (auto; lia). rewrite E, Nat2Z.id.
    reflexivity.
Qed.

Lemma r_single_uses_every_pair_witness :
  dim1 Sample.raster3 = 1 /\ 3 <= dim0 Sample.raster3
  /\ exists ps : list (nat * nat),
       Permutation ps (all_pairs 3)
       /\ _r_single NumpyRef.np_corrcoef NumpyRef.np_mean Sample.uniform
            Sample.raster3 100 0
          = (Return (clamp (NumpyRef.np_mean
                              (map (pair_corr NumpyRef.np_corrcoef
                                      Sample.raster3) ps))), 3).
Proof.
  split; [reflexivity|]. split; [simpl; lia|].
  apply (r_single_uses_every_pair NumpyRef.np_corrcoef
           NumpyRef.np_mean Sample.uniform Sample.raster3 100 0 eq_refl);
    [simpl; lia|vm_compute; discriminate].
Defined.

(** X7.  The outcomes of [_r_single] on a single-channel raster: the
    integer 0 for at most one repeat; otherwise the unsupported error
    when the reduced cap is one, the [ValueError] of [np.zeros] when it
    is negative, and else a clamped mean.  No index is ever out of
    range, and the generator is used (for [paircount] variates) only
    when a mean is returned. *)
Theorem r_single_outcomes :
  forall (np_corrcoef : list float -> list float -> float)
         (np_mean : list float -> float) (uniform : nat -> float)
         (X : ndarray3) (N : Z) (s : nat),
    dim1 X = 1 ->
    let r := _r_single np_corrcoef np_mean uniform X N s in
    (dim0 X <= 1 /\ r = (Return (PyInt 0), s))
    \/ (2 <= dim0 X /\ effective_N (dim0 X) N = 1%Z
        /\ r = (Raise (ValueError two_repeats_msg), s))
    \/ (2 <= dim0 X /\ (effective_N (dim0 X) N < 0)%Z
        /\ r = (Raise (ValueError negative_dim_msg), s))
    \/ (2 <= dim0 X /\ effective_N (dim0 X) N <> 1%Z
        /\ (0 <= effective_N (dim0 X) N)%Z
        /\ exists m : float, r = (Return (clamp m), s + comb2 (dim0 X))).
Proof.
  intros f mean u X N s Hc r. unfold r.
  destruct (le_lt_dec (dim0 X) 1) as [Hr|Hr].
  - left. split; [exact Hr|]. apply r_single_few_repeats; lia.
  - right. destruct (Z.eq_dec (effective_N (dim0 X) N) 1) as [E|E].
    + left. split; [lia|]. split; [exact E|].
      apply r_single_unsupported; auto; lia.
    + right. destruct (Z_lt_le_dec (effective_N (dim0 X) N) 0) as [L|L].
      * left. split; [lia|]. split; [exact L|].
        apply r_single_negative_cap; auto; lia.
      * right. split; [lia|]. split; [exact E|]. split; [exact L|].
        eexists. apply r_single_value; auto; lia.
Qed.

Lemma r_single_outcomes_witness :
  dim1 Sample.raster3 = 1
  /\ exists m : float,
       _r_single NumpyRef.np_corrcoef NumpyRef.np_mean Sample.uniform
         Sample.raster3 0 7
       = (Return (clamp m), 7 + comb2 3).
Proof.
  split; [reflexivity|].
  destruct (r_single_outcomes NumpyRef.np_corrcoef NumpyRef.np_mean
              Sample.uniform Sample.raster3 0 7 eq_refl)
    as [[H _]|[[_ [H _]]|[[_ [H _]]|[_ [_ [_ H]]]]]].
  - simpl in H. lia.
  - vm_compute in H. discriminate H.
  - vm_compute in H. discriminate H.
  - exact H.
Defined.

(** ** r_floor *)

(** The value read at the 95th percentile rank of the sorted results. *)
Definition percentile_value (kept : list float) : pyval :=
  match kept with
  | [] => PyInt 0
  | _ :: _ => NpFloat (nth (95 * length kept / 100) kept F64.nan)
  end.

Lemma r_floor_tail
    (np_corrcoef : list float -> list float -> float) (uniform : nat -> float)
    (a b : list float) (s : nat) :
  length a = length b ->
  r_floor np_corrcoef uniform (recording_of a b) "pred" "resp" s
  = (let X1 := map fst (finite_pairs a b) in
     let X2 := map snd (finite_pairs a b) in
     let n := if 500 <? length X1 then 500 else length X1 in
     rf <~ for_eachM (floor_body np_corrcoef uniform X1 X2 n)
             (seq 0 (length (np_zeros 1000))) (np_zeros 1000) ;;
     let rf := np_sort (filter F64.is_finite rf) in
     if 0 <? length rf then
       i <~ lift (np_int (F64.mul (F64.of_nat (length rf)) F64.c0_95)) ;;
       v <~ lift (get_item_Z rf i) ;;
       ret (NpFloat v)
     else ret (PyInt 0)) s.
Proof.
  intros H. unfold r_floor, recording_of.
  unfold bindM at 1. unfold lift at 1. rewrite getitem_pred.
  unfold bindM at 1. unfold lift at 1. rewrite getitem_resp.
  cbn [as_continuous continuous_signal].
  change (1 <? nrows (of_row a)) with false. cbv iota.
  unfold bindM at 1. unfold lift at 1. rewrite (logical_and2_rows a b H).
  unfold bindM at 1. unfold lift at 1. rewrite (bool_index2_pred a b H).
  unfold bindM at 1. unfold lift at 1. rewrite (bool_index2_resp a b H).
  reflexivity.
Qed.

Lemma r_floor_value
    (np_corrcoef : list float -> list float -> float) (uniform : nat -> float)
    (a b : list float) (s : nat) :
  length a = length b ->
  let X1 := map fst (finite_pairs a b) in
  let X2 := map snd (finite_pairs a b) in
  let n := Nat.min 500 (length X1) in
  (0 < n -> draws_in_range uniform (length X1)) ->
  r_floor np_corrcoef uniform (recording_of a b) "pred" "resp" s
  = (Return (percentile_value
               (np_sort (filter F64.is_finite
                           (floor_trials np_corrcoef uniform X1 X2 n 1000 s)))),
     s + 2 * n * 1000).
Proof.
  intros H X1 X2 n Hdraw. rewrite (r_floor_tail _ _ a b s H).
  fold X1. fold X2. cbv zeta.
  assert (HX : length X2 = length X1)
    by (unfold X1, X2; rewrite !length_map; reflexivity).
  replace (if 500 <? length X1 then 500 else length X1) with n
    by (unfold n; destruct (Nat.ltb_spec 500 (length X1)); lia).
  unfold bindM at 1.
  change (length (np_zeros 1000)) with 1000.
  change (np_zeros 1000) with ([] ++ np_zeros 1000).
  rewrite (for_eachM_fill (floor_body np_corrcoef uniform X1 X2 n)
             (floor_trial np_corrcoef uniform X1 X2 n) (2 * n) 1000 0 [] s
             eq_refl).
  - cbn [app]. fold (floor_trials np_corrcoef uniform X1 X2 n 1000 s).
    set (kept := np_sort (filter F64.is_finite
                   (floor_trials np_corrcoef uniform X1 X2 n 1000 s))).
    assert (Hk : length kept <= 1000).
    { unfold kept. rewrite (Permutation_length (np_sort_perm _)).
      rewrite <- (floor_trials_length np_corrcoef uniform X1 X2 n 1000 s)
        at 2.
      apply filter_length_le. }
    destruct kept as [|x kept'] eqn:Ek.
    + reflexivity.
    + change (0 <? length (x :: kept')) with true. cbv iota.
      unfold bindM at 1. unfold lift at 1.
      rewrite (percentile_index (length (x :: kept')) Hk).
      unfold bindM at 1. unfold lift at 1.
      rewrite get_item_Z_ok.
      * unfold ret, pick, percentile_value.
        destruct (Z.ltb_spec (Z.of_nat (95 * length (x :: kept') / 100)) 0);
          [lia|]. rewrite Nat2Z.id. reflexivity.
      * unfold index_ok. split; [lia|]. apply Nat2Z.inj_lt.
        apply Nat.Div0.div_lt_upper_bound. simpl length. lia.
  - intros rf0 nn s0 _. apply floor_body_value.
    + exact Hdraw.
    + rewrite HX. exact Hdraw.
Qed.

(** X8.  Missing samples are absent for [r_floor] too: the result and
    the use of the generator are those on the subsequences at the
    jointly finite positions. *)
Theorem r_floor_drops_missing :
  forall (np_corrcoef : list float -> list float -> float)
         (uniform : nat -> float) (a b : list float) (s : nat),
    length a = length b ->
    r_floor np_corrcoef uniform (recording_of a b) "pred" "resp" s
    = r_floor np_corrcoef uniform
        (recording_of (map fst (finite_pairs a b))
                      (map snd (finite_pairs a b))) "pred" "resp" s.
Proof.
  intros f u a b s H. rewrite (r_floor_tail f u a b s H).
  rewrite r_floor_tail by (rewrite !length_map; reflexivity).
  rewrite finite_pairs_idempotent. reflexivity.
Qed.

Lemma r_floor_drops_missing_witness :
  length Sample.pred_b = length Sample.resp_b
  /\ r_floor NumpyRef.np_corrcoef Sample.uniform
       (recording_of Sample.pred_b Sample.resp_b) "pred" "resp" 0
     = r_floor NumpyRef.np_corrcoef Sample.uniform
         (recording_of [Sample.f 1; Sample.f 2; Sample.f 4; Sample.f 5]
                       [Sample.f 5; Sample.f 4; Sample.f 2; Sample.f 1])
         "pred" "resp" 0.
Proof.
  split; [reflexivity|].
  exact (r_floor_drops_missing NumpyRef.np_corrcoef Sample.uniform
           Sample.pred_b Sample.resp_b 0 eq_refl).
Defined.

Lemma filter_none {A} (p : A -> bool) (l : list A) :
  (forall x, In x l -> p x = false) -> filter p l = [].
Proof.
  induction l as [|x l IH]; simpl; intros H; [reflexivity|].
  rewrite (H x) by auto. apply IH. auto.
Qed.

(** X9.  Without a jointly finite position there is nothing to shuffle:
    [n] is 0, each of the 1000 results is [np.corrcoef] of two empty
    arrays, and when that is not a finite number (NumPy yields NaN)
    [r_floor] returns the integer 0 and draws no variate. *)
Theorem r_floor_no_valid_data :
  forall (np_corrcoef : list float -> list float -> float)
         (uniform : nat -> float) (a b : list float) (s : nat),
    length a = length b ->
    existsb both_finite (combine a b) = false ->
    F64.is_finite (np_corrcoef [] []) = false ->
    r_floor np_corrcoef uniform (recording_of a b) "pred" "resp" s
    = (Return (PyInt 0), s).
Proof.
  intros f u a b s H Hnone Hnan.
  assert (E : finite_pairs a b = []).
  { unfold finite_pairs. rewrite existsb_filter_length in Hnone.
    destruct (filter both_finite (combine a b)); [reflexivity|].
    discriminate Hnone. }
  rewrite r_floor_value; [|exact H|rewrite E; simpl; lia].
  rewrite E. cbn [map length Nat.min].
  rewrite filter_none.
  - cbn [np_sort fold_right percentile_value]. f_equal. lia.
  - intros x Hx. unfold floor_trials in Hx. apply in_map_iff in Hx.
    destruct Hx as [rr [Ex _]]. subst x. exact Hnan.
Qed.

Lemma r_floor_no_valid_data_witness :
  length [F64.nan; Sample.f 1] = length [Sample.f 2; F64.nan]
  /\ F64.is_finite (NumpyRef.np_corrcoef [] []) = false
  /\ r_floor NumpyRef.np_corrcoef Sample.uniform
       (recording_of [F64.nan; Sample.f 1] [Sample.f 2; F64.nan])
       "pred" "resp" 5
     = (Return (PyInt 0), 5).
Proof.
  split; [reflexivity|]. split; [reflexivity|].
  apply (r_floor_no_valid_data NumpyRef.np_corrcoef Sample.uniform
           [F64.nan; Sample.f 1] [Sample.f 2; F64.nan] 5); reflexivity.
Defined.

(** *** The order of the sorted results *)

Lemma leb_trans (x y z : float) :
  F64.leb x y = true -> F64.leb y z = true -> F64.leb x z = true.
Proof.
  unfold F64.leb, SFleb.
  destruct x as [sx|sx| |sx mx ex], y as [sy|sy| |sy my ey],
           z as [sz|sz| |sz mz ez]; simpl;
    try discriminate; try reflexivity;
    try (destruct sx; simpl; try discriminate; try reflexivity);
    try (destruct sy; simpl; try discriminate; try reflexivity);
    try (destruct sz; simpl; try discriminate; try reflexivity);
    change (Pos.compare_cont Eq) with Pos.compare;
    try (destruct (Z.compare_spec ex ey); simpl; try discriminate);
    try (destruct (Z.compare_spec ey ez); simpl; try discriminate);
    try (destruct (Z.compare_spec ex ez); simpl; try reflexivity; try lia);
    try (destruct (Pos.compare_spec mx my); simpl; try discriminate);
    try (destruct (Pos.compare_spec my mz); simpl; try discriminate);
    try (destruct (Pos.compare_spec mx mz); simpl; try reflexivity; try lia);
    intros; try discriminate; try reflexivity; try lia.
Qed.

Lemma leb_refl (x : float) : F64.is_nan x = false -> F64.leb x x = true.
Proof.
  intros H. destruct (F64.leb x x) eqn:E; [reflexivity|].
  pose proof (leb_total x x H H E) as T. congruence.
Qed.

Lemma leb_not_ltb (x y : float) : F64.leb x y = true -> F64.ltb y x = false.
Proof.
  unfold F64.leb, F64.ltb, SFleb, SFltb. rewrite (SFcompare_antisym x y).
  destruct (SFcompare x y) as [[ | | ]|]; simpl; congruence.
Qed.

Lemma ltb_irrefl (x : float) : F64.ltb x x = false.
Proof.
  destruct (F64.leb x x) eqn:E; [apply leb_not_ltb; exact E|].
  unfold F64.leb, F64.ltb, SFleb, SFltb in *.
  destruct (SFcompare x x) as [[ | | ]|]; congruence.
Qed.

Lemma sorted_around (l1 l2 : list float) (v : float) :
  Sorted le_float (l1 ++ v :: l2) ->
  Forall (fun y => F64.leb y v = true) l1
  /\ Forall (fun y => F64.leb v y = true) l2.
Proof.
  intros S. apply Sorted_StronglySorted in S;
    [|intros x y z; unfold le_float; apply leb_trans].
  induction l1 as [|y l1 IH]; simpl in S.
  - apply StronglySorted_inv in S. destruct S as [_ F]. split; [constructor|].
    exact F.
  - apply StronglySorted_inv in S. destruct S as [S F].
    destruct (IH S) as [A B]. split; [|exact B]. constructor; [|exact A].
    rewrite Forall_forall in F. apply F. apply in_or_app. right. left.
    reflexivity.
Qed.

Lemma filter_length_all {A} (p : A -> bool) (l : list A) :
  Forall (fun x => p x = true) l -> length (filter p l) = length l.
Proof.
  induction 1 as [|x l Hx Hl IH]; simpl; [reflexivity|].
  rewrite Hx. simpl. rewrite IH. reflexivity.
Qed.

Lemma permutation_filter {A} (p : A -> bool) (l l' : list A) :
  Permutation l l' -> Permutation (filter p l) (filter p l').
Proof.
  induction 1 as [|x l l' H IH|x y l|l l' l'' H1 IH1 H2 IH2]; simpl.
  - constructor.
  - destruct (p x); [constructor|]; exact IH.
  - destruct (p x), (p y); try reflexivity. apply perm_swap.
  - rewrite IH1. exact IH2.
Qed.

(** The rank of the entry at index [floor(0.95 * count)] of a sorted
    list of numbers: more than 95% of the entries are at most it, and at
    most 5% are above it. *)
Lemma percentile_rank (kept : list float) :
  kept <> [] ->
  Forall (fun x => F64.is_nan x = false) kept ->
  Sorted le_float kept ->
  let v := nth (95 * length kept / 100) kept F64.nan in
  95 * length kept < 100 * length (filter (fun x => F64.leb x v) kept)
  /\ 100 * length (filter (fun x => F64.ltb v x) kept) <= 5 * length kept.
Proof.
  intros Hne Hnan Hs v.
  assert (Hc : 0 < length kept) by (destruct kept; [congruence|simpl; lia]).
  assert (Hi : 95 * length kept / 100 < length kept)
    by (apply Nat.Div0.div_lt_upper_bound; lia).
  destruct (nth_split kept F64.nan Hi) as [l1 [l2 [E L1]]].
  fold v in E.
  assert (Hv : F64.is_nan v = false).
  { rewrite Forall_forall in Hnan. apply Hnan. apply nth_In. exact Hi. }
  rewrite E in Hs. destruct (sorted_around l1 l2 v Hs) as [A B].
  pose proof (Nat.div_mod_eq (95 * length kept) 100) as D.
  pose proof (Nat.mod_upper_bound (95 * length kept) 100 ltac:(lia)) as M.
  assert (Len : length kept = length l1 + S (length l2)).
  { rewrite E at 1. rewrite length_app. reflexivity. }
  split.
  - rewrite E at 2. rewrite filter_app. cbn [filter].
    rewrite (leb_refl v Hv). rewrite length_app. cbn [length].
    rewrite (filter_length_all _ l1 A). lia.
  - rewrite E at 1. rewrite filter_app. cbn [filter].
    rewrite ltb_irrefl. rewrite length_app.
    rewrite (filter_none (fun x => F64.ltb v x) l1).
    + pose proof (filter_length_le (fun x => F64.ltb v x) l2). simpl. lia.
    + intros x Hx. apply leb_not_ltb. rewrite Forall_forall in A.
      apply A. exact Hx.
Qed.

(** X10.  What [r_floor] returns: either a finite value that one of the
    1000 shuffles produced, or the integer 0 when no shuffle produced a
    finite value; never NaN or an infinity. *)
Theorem r_floor_returns_finite_result :
  forall (np_corrcoef : list float -> list float -> float)
         (uniform : nat -> float) (a b : list float) (s : nat),
    length a = length b ->
    let X1 := map fst (finite_pairs a b) in
    let X2 := map snd (finite_pairs a b) in
    let n := Nat.min 500 (length X1) in
    (0 < n -> draws_in_range uniform (length X1)) ->
    let rf := floor_trials np_corrcoef uniform X1 X2 n 1000 s in
    let r := fst (r_floor np_corrcoef uniform (recording_of a b)
                    "pred" "resp" s) in
    (exists v, r = Return (NpFloat v)
               /\ F64.is_finite v = true /\ In v rf)
    \/ (r = Return (PyInt 0)
        /\ Forall (fun x => F64.is_finite x = false) rf).
Proof.
  intros f u a b s H X1 X2 n Hdraw rf r. unfold r.
  rewrite (r_floor_value f u a b s H Hdraw). cbn [fst].
  fold X1 X2 n rf.
  pose proof (np_sort_perm (filter F64.is_finite rf)) as P.
  destruct (np_sort (filter F64.is_finite rf)) as [|x kept] eqn:E.
  - right. split; [reflexivity|].
    apply Permutation_nil in P. apply Forall_forall. intros y Hy.
    destruct (F64.is_finite y) eqn:Fy; [|reflexivity].
    assert (I : In y (filter F64.is_finite rf))
      by (apply filter_In; split; assumption).
    rewrite P in I. destruct I.
  - left. eexists. split; [reflexivity|].
    assert (I : In (nth (95 * length (x :: kept) / 100) (x :: kept) F64.nan)
                  (x :: kept)).
    { apply nth_In. apply Nat.Div0.div_lt_upper_bound. simpl length. lia. }
    apply (Permutation_in _ P) in I. apply filter_In in I.
    destruct I as [I F]. split; assumption.
Qed.

Lemma r_floor_returns_finite_result_witness :
  length Sample.pred_b = length Sample.resp_b
  /\ draws_in_range Sample.uniform 4
  /\ ((exists v,
         fst (r_floor NumpyRef.np_corrcoef Sample.uniform
                (recording_of Sample.pred_b Sample.resp_b) "pred" "resp" 0)
         = Return (NpFloat v)
         /\ F64.is_finite v = true
         /\ In v (floor_trials NumpyRef.np_corrcoef Sample.uniform
                    [Sample.f 1; Sample.f 2; Sample.f 4; Sample.f 5]
                    [Sample.f 5; Sample.f 4; Sample.f 2; Sample.f 1]
                    4 1000 0))
      \/ (fst (r_floor NumpyRef.np_corrcoef Sample.uniform
                 (recording_of Sample.pred_b Sample.resp_b) "pred" "resp" 0)
          = Return (PyInt 0)
          /\ Forall (fun x => F64.is_finite x = false)
               (floor_trials NumpyRef.np_corrcoef Sample.uniform
                  [Sample.f 1; Sample.f 2; Sample.f 4; Sample.f 5]
                  [Sample.f 5; Sample.f 4; Sample.f 2; Sample.f 1]
                  4 1000 0))).
Proof.
  split; [reflexivity|]. split; [exact sample_draws_in_range|].
  exact (r_floor_returns_finite_result NumpyRef.np_corrcoef Sample.uniform
           Sample.pred_b Sample.resp_b 0 eq_refl
           (fun _ => sample_draws_in_range)).
Defined.

(** X11.  The value [r_floor] returns is the 95th percentile of the
    finite shuffle results: unless there is none (and 0 is returned),
    more than 95% of them are at most that value, and at most 5% of them
    are above it. *)
Theorem r_floor_percentile_rank :
  forall (np_corrcoef : list float -> list float -> float)
         (uniform : nat -> float) (a b : list float) (s : nat),
    length a = length b ->
    let X1 := map fst (finite_pairs a b) in
    let X2 := map snd (finite_pairs a b) in
    let n := Nat.min 500 (length X1) in
    (0 < n -> draws_in_range uniform (length X1)) ->
    let finite_results :=
      filter F64.is_finite
        (floor_trials np_corrcoef uniform X1 X2 n 1000 s) in
    let r := fst (r_floor np_corrcoef uniform (recording_of a b)
                    "pred" "resp" s) in
    (finite_results = [] /\ r = Return (PyInt 0))
    \/ (exists v,
          r = Return (NpFloat v)
          /\ 95 * length finite_results
             < 100 * length (filter (fun x => F64.leb x v) finite_results)
          /\ 100 * length (filter (fun x => F64.ltb v x) finite_results)
             <= 5 * length finite_results).
Proof.
  intros f u a b s H X1 X2 n Hdraw fin r. unfold r.
  rewrite (r_floor_value f u a b s H Hdraw). cbn [fst].
  fold X1 X2 n fin.
  pose proof (np_sort_perm fin) as P.
  assert (Hnan : Forall (fun x => F64.is_nan x = false) fin).
  { apply Forall_forall. intros x Hx. apply filter_In in Hx.
    apply finite_not_nan, Hx. }
  assert (Hnan' : Forall (fun x => F64.is_nan x = false) (np_sort fin)).
  { eapply Permutation_Forall; [symmetry; exact P|exact Hnan]. }
  pose proof (np_sort_sorted fin Hnan) as S.
  destruct (np_sort fin) as [|x kept] eqn:E.
  - left. split; [|reflexivity]. apply Permutation_nil. exact P.
  - right.
    exists (nth (95 * length (x :: kept) / 100) (x :: kept) F64.nan).
    split; [reflexivity|].
    destruct (percentile_rank (x :: kept) ltac:(discriminate) Hnan' S)
      as [A B].
    cbv zeta in A, B.
    set (v := nth (95 * length (x :: kept) / 100) (x :: kept) F64.nan) in *.
    pose proof (Permutation_length P) as L1.
    pose proof (Permutation_length
                  (permutation_filter (fun y => F64.leb y v) _ _ P)) as L2.
    pose proof (Permutation_length
                  (permutation_filter (fun y => F64.ltb v y) _ _ P)) as L3.
    rewrite <- L1, <- L2, <- L3. split; assumption.
Qed.

Lemma r_floor_percentile_rank_witness :
  let fin :=
    filter F64.is_finite
      (floor_trials NumpyRef.np_corrcoef Sample.uniform
         (map fst (finite_pairs Sample.pred_b Sample.resp_b))
         (map snd (finite_pairs Sample.pred_b Sample.resp_b))
         (Nat.min 500
            (length (map fst (finite_pairs Sample.pred_b Sample.resp_b))))
         1000 0) in
  let r := fst (r_floor NumpyRef.np_corrcoef Sample.uniform
                  (recording_of Sample.pred_b Sample.resp_b)
                  "pred" "resp" 0) in
  length Sample.pred_b = length Sample.resp_b
  /\ draws_in_range Sample.uniform 4
  /\ ((fin = [] /\ r = Return (PyInt 0))
      \/ (exists v,
            r = Return (NpFloat v)
            /\ 95 * length fin
               < 100 * length (filter (fun x => F64.leb x v) fin)
            /\ 100 * length (filter (fun x => F64.ltb v x) fin)
               <= 5 * length fin)).
Proof.
  intros fin r. split; [reflexivity|].
  split; [exact sample_draws_in_range|].
  exact (r_floor_percentile_rank NumpyRef.np_corrcoef Sample.uniform
           Sample.pred_b Sample.resp_b 0 eq_refl
           (fun _ => sample_draws_in_range)).
Defined.

(** ** r_ceiling *)


(** An exception raised in the body of the epoch loop ends [r_ceiling]:
    nothing catches it. *)
Lemma r_ceiling_body_error_propagates
    (np_corrcoef : list float -> list float -> float)
    (np_mean : list float -> float) (uniform : nat -> float)
    (pred pred' resp resp' : signal) (N : Z) (s s1 s2 : nat)
    (pre post : list (string * ndarray3)) (kd : string * ndarray3)
    (st : ceiling_state) (e : exn) :
  folded_prediction pred = pre ++ kd :: post ->
  ceiling_loop np_corrcoef np_mean uniform resp N pre s = (Return st, s1) ->
  ceiling_body np_corrcoef np_mean uniform resp N st kd s1 = (Raise e, s2) ->
  r_ceiling np_corrcoef np_mean uniform
    (mk_recording pred resp') (mk_recording pred' resp) "pred" "resp" N s
  = (Raise e, s2).
Proof.
  intros Hf Hpre Hbody. rewrite r_ceiling_unfold. rewrite Hf.
  unfold ceiling_loop in *. rewrite for_eachM_app, Hpre.
  cbn [for_eachM]. unfold bindM. rewrite Hbody. reflexivity.
Qed.

Lemma ceiling_body_reliability_error
    (np_corrcoef : list float -> list float -> float)
    (np_mean : list float -> float) (uniform : nat -> float)
    (resp : signal) (N : Z) (st : ceiling_state) (k : string)
    (d : ndarray3) (s s' : nat) (e : exn) :
  0 < count_finite3 d ->
  _r_single np_corrcoef np_mean uniform (extract_epoch resp k) N s
  = (Raise e, s') ->
  ceiling_body np_corrcoef np_mean uniform resp N st (k, d) s
  = (Raise e, s').
Proof.
  intros Hfin Hr. unfold ceiling_body. cbn [fst snd].
  destruct (Nat.ltb_spec 0 (count_finite3 d)); [|lia].
  unfold bindM. rewrite Hr. reflexivity.
Qed.

(** X12.  One stimulus with exactly two repeats aborts the whole
    estimate: when the loop reaches an epoch that has finite prediction
    data and a single-channel raster of two repeats (cap [N >= 1]),
    [r_ceiling] raises the unsupported two-repeat error of [_r_single],
    whatever the other epochs hold. *)
Theorem r_ceiling_two_repeat_epoch_raises :
  forall (np_corrcoef : list float -> list float -> float)
         (np_mean : list float -> float) (uniform : nat -> float)
         (pred pred' resp resp' : signal) (N : Z) (s s1 : nat)
         (pre post : list (string * ndarray3)) (k : string) (d : ndarray3)
         (st : ceiling_state),
    folded_prediction pred = pre ++ (k, d) :: post ->
    ceiling_loop np_corrcoef np_mean uniform resp N pre s = (Return st, s1) ->
    0 < count_finite3 d ->
    dim1 (extract_epoch resp k) = 1 -> dim0 (extract_epoch resp k) = 2 ->
    (1 <= N)%Z ->
    r_ceiling np_corrcoef np_mean uniform
      (mk_recording pred resp') (mk_recording pred' resp) "pred" "resp" N s
    = (Raise (ValueError two_repeats_msg), s1).
Proof.
  intros f mean u pred pred' resp resp' N s s1 pre post k d st
    Hf Hpre Hfin Hc Hr HN.
  apply (r_ceiling_body_error_propagates f mean u pred pred' resp resp'
           N s s1 s1 pre post (k, d) st _ Hf Hpre).
  apply ceiling_body_reliability_error; [exact Hfin|].
  apply r_single_unsupported; [lia|lia|].
  unfold effective_N. rewrite Hr. change (2 * (2 - 1) / 2) with 1. lia.
Qed.

Module PropagationSample.

(** A clean epoch followed by one with two repeats only. *)
Definition pred_mixed : signal :=
  Sample.epoch_signal ["STIM_a"%string; "STIM_b"%string]
    (fun _ => of_repeats 3 [[Sample.f 1; Sample.f 2; Sample.f 3]]).
Definition resp_mixed : signal :=
  Sample.epoch_signal ["STIM_a"%string; "STIM_b"%string]
    (Sample.by_name Sample.raster3 Sample.raster2).

(** A prediction of two samples against rasters of three. *)
Definition pred_short : signal :=
  Sample.epoch_signal ["STIM_a"%string]
    (fun _ => of_repeats 2 [[Sample.f 1; Sample.f 2]]).

End PropagationSample.

Lemma r_ceiling_two_repeat_epoch_raises_witness :
  r_ceiling NumpyRef.np_corrcoef NumpyRef.np_mean Sample.uniform
    (mk_recording PropagationSample.pred_mixed PropagationSample.resp_mixed)
    (mk_recording PropagationSample.pred_mixed PropagationSample.resp_mixed)
    "pred" "resp" 100 0
  = (Raise (ValueError two_repeats_msg), 3).
Proof.
  apply (r_ceiling_two_repeat_epoch_raises NumpyRef.np_corrcoef
           NumpyRef.np_mean Sample.uniform
           PropagationSample.pred_mixed PropagationSample.pred_mixed
           PropagationSample.resp_mixed PropagationSample.resp_mixed
           100 0 3
           [("STIM_a"%string,
             extract_epoch PropagationSample.pred_mixed "STIM_a")]
           [] "STIM_b"
           (extract_epoch PropagationSample.pred_mixed "STIM_b")
           {| rnorm_c := NpFloat (Sample.f 3); n_total := 3%Z;
              X1_local := Some [Sample.f 1; Sample.f 2; Sample.f 3] |}).
  - reflexivity.
  - vm_compute. reflexivity.
  - vm_compute. lia.
  - reflexivity.
  - reflexivity.
  - lia.
Defined.

Lemma masked_pair_length_mismatch (a b : list float) :
  length a <> length b -> length a <> 1 -> length b <> 1 ->
  masked_pair a b = Raise (ValueError broadcast_msg).
Proof.
  intros H Ha Hb. unfold masked_pair, logical_and1. rewrite !length_map.
  destruct (Nat.eqb_spec (length a) (length b)); [contradiction|].
  destruct (Nat.eqb_spec (length a) 1); [contradiction|].
  destruct (Nat.eqb_spec (length b) 1); [contradiction|]. reflexivity.
Qed.

(** X13.  The raster of an epoch and its folded prediction must have the
    same number of time samples: for an epoch that passes both gates
    with lengths that differ (neither being one), the mask of the first
    repeat cannot be formed and [r_ceiling] raises the broadcasting
    [ValueError]. *)
Theorem r_ceiling_length_mismatch_raises :
  forall (np_corrcoef : list float -> list float -> float)
         (np_mean : list float -> float) (uniform : nat -> float)
         (pred pred' resp resp' : signal) (N : Z) (s s1 s2 : nat)
         (pre post : list (string * ndarray3)) (k : string) (d : ndarray3)
         (st : ceiling_state) (rac : pyval),
    let X := extract_epoch resp k in
    folded_prediction pred = pre ++ (k, d) :: post ->
    ceiling_loop np_corrcoef np_mean uniform resp N pre s = (Return st, s1) ->
    0 < count_finite3 d -> dim1 X = 1 ->
    _r_single np_corrcoef np_mean uniform X N s1 = (Return rac, s2) ->
    py_gt0 rac = true ->
    dim2 X <> dim2 d -> dim2 X <> 1 -> dim2 d <> 1 ->
    r_ceiling np_corrcoef np_mean uniform
      (mk_recording pred resp') (mk_recording pred' resp) "pred" "resp" N s
    = (Raise (ValueError broadcast_msg), s2).
Proof.
  intros f mean u pred pred' resp resp' N s s1 s2 pre post k d st rac X
    Hf Hpre Hfin Hc Hrac Hpos Hne HX Hd.
  apply (r_ceiling_body_error_propagates f mean u pred pred' resp resp'
           N s s1 s2 pre post (k, d) st _ Hf Hpre).
  unfold ceiling_body. cbn [fst snd].
  destruct (Nat.ltb_spec 0 (count_finite3 d)); [|lia].
  fold X. unfold bindM at 1. rewrite Hrac, Hpos.
  assert (Hr : 2 <= dim0 X).
  { destruct (le_lt_dec (dim0 X) 1) as [L|L]; [|lia].
    rewrite r_single_few_repeats in Hrac by lia.
    inversion Hrac; subst. discriminate Hpos. }
  destruct (count_finite3_dims d Hfin) as [H0 H1].
  unfold bindM, lift.
  destruct (dim0 X) as [|r] eqn:E; [lia|].
  cbn [seq for_each]. unfold repeat_body at 1.
  rewrite (slice3_in_range X 0) by lia. cbn [bind].
  rewrite (slice3_in_range d 0) by lia. cbn [bind].
  rewrite masked_pair_length_mismatch by (rewrite !row_length; assumption).
  reflexivity.
Qed.

Lemma r_ceiling_length_mismatch_raises_witness :
  r_ceiling NumpyRef.np_corrcoef NumpyRef.np_mean Sample.uniform
    (mk_recording PropagationSample.pred_short CeilingSample.resp_clean)
    (mk_recording PropagationSample.pred_short CeilingSample.resp_clean)
    "pred" "resp" 100 0
  = (Raise (ValueError broadcast_msg), 3).
Proof.
  apply (r_ceiling_length_mismatch_raises NumpyRef.np_corrcoef
           NumpyRef.np_mean Sample.uniform
           PropagationSample.pred_short PropagationSample.pred_short
           CeilingSample.resp_clean CeilingSample.resp_clean
           100 0 0 3 [] [] "STIM_a"
           (extract_epoch PropagationSample.pred_short "STIM_a")
           ceiling_init (NpFloat F64.one)).
  - reflexivity.
  - reflexivity.
  - vm_compute. lia.
  - reflexivity.
  - vm_compute. reflexivity.
  - reflexivity.
  - vm_compute. discriminate.
  - vm_compute. discriminate.
  - vm_compute. discriminate.
Defined.

(** *** The accumulators *)

(** Between epochs the sample total is not negative, and the weighted
    sum is either the integer 0 it started as (with a total of 0) or a
    [np.float64]. *)
Definition accumulators_ok (st : ceiling_state) : Prop :=
  (0 <= n_total st)%Z
  /\ ((rnorm_c st = PyInt 0 /\ n_total st = 0%Z)
      \/ exists x, rnorm_c st = NpFloat x).

Lemma ceiling_body_keeps_accumulators
    (np_corrcoef : list float -> list float -> float)
    (np_mean : list float -> float) (uniform : nat -> float)
    (resp : signal) (N : Z) (st st' : ceiling_state)
    (kd : string * ndarray3) (s s' : nat) :
  accumulators_ok st ->
  ceiling_body np_corrcoef np_mean uniform resp N st kd s = (Return st', s') ->
  accumulators_ok st'.
Proof.
  intros [Hn Hk] H. unfold ceiling_body in H.
  destruct (0 <? count_finite3 (snd kd)).
  - unfold bindM, lift, ret in H.
    destruct (_r_single np_corrcoef np_mean uniform
                (extract_epoch resp (fst kd)) N s) as [[rac|e] s1];
      [|discriminate H].
    destruct (py_gt0 rac).
    + destruct (for_each _ _ _) as [[rs x1]|e]; [|discriminate H].
      cbn [snd fst] in H.
      destruct x1 as [x1|]; cbn [read_local] in H; [|discriminate H].
      inversion H; subst. split; cbn [n_total rnorm_c].
      * lia.
      * right. rewrite py_add_np_float. eexists. reflexivity.
    + inversion H; subst. split; assumption.
  - unfold ret in H. inversion H; subst. split; assumption.
Qed.

Lemma ceiling_loop_keeps_accumulators
    (np_corrcoef : list float -> list float -> float)
    (np_mean : list float -> float) (uniform : nat -> float)
    (resp : signal) (N : Z) (folded : list (string * ndarray3)) :
  forall st st' s s',
    accumulators_ok st ->
    for_eachM (ceiling_body np_corrcoef np_mean uniform resp N) folded st s
    = (Return st', s') ->
    accumulators_ok st'.
Proof.
  induction folded as [|kd l IH]; intros st st' s s' Hok H; simpl in H.
  - unfold ret in H. inversion H; subst. exact Hok.
  - unfold bindM in H.
    destruct (ceiling_body np_corrcoef np_mean uniform resp N st kd s)
      as [[st1|e] s1] eqn:E; [|discriminate H].
    apply (IH st1 st' s1 s'); [|exact H].
    eapply ceiling_body_keeps_accumulators; eassumption.
Qed.

(** X14.  The three ways [r_ceiling] ends.  An exception of the loop
    propagates.  Otherwise the sample total is not negative and either
    no epoch was added (the weighted sum and the total are the integers
    0, and the division raises [ZeroDivisionError]), or the weighted sum
    is a [np.float64] and [r_ceiling] returns the [np.float64] quotient
    without raising, even for a total of 0.  It never returns a Python
    number. *)
Theorem r_ceiling_endings :
  forall (np_corrcoef : list float -> list float -> float)
         (np_mean : list float -> float) (uniform : nat -> float)
         (pred pred' resp resp' : signal) (N : Z) (s : nat),
    let r := r_ceiling np_corrcoef np_mean uniform
               (mk_recording pred resp') (mk_recording pred' resp)
               "pred" "resp" N s in
    match ceiling_loop np_corrcoef np_mean uniform resp N
            (folded_prediction pred) s with
    | (Raise e, s') => r = (Raise e, s')
    | (Return st, s') =>
        (0 <= n_total st)%Z
        /\ ((rnorm_c st = PyInt 0 /\ n_total st = 0%Z
             /\ r = (Raise ZeroDivisionError, s'))
            \/ exists x,
                 rnorm_c st = NpFloat x
                 /\ r = (Return (NpFloat (F64.div x (F64.of_Z (n_total st)))),
                         s'))
    end.
Proof.
  intros f mean u pred pred' resp resp' N s r. unfold r.
  rewrite r_ceiling_unfold.
  destruct (ceiling_loop f mean u resp N (folded_prediction pred) s)
    as [[st|e] s'] eqn:E; [|reflexivity].
  assert (Hok : accumulators_ok st).
  { unfold ceiling_loop in E.
    apply (ceiling_loop_keeps_accumulators f mean u resp N
             (folded_prediction pred) ceiling_init st s s'); [|exact E].
    split; [cbn; lia|]. left. split; reflexivity. }
  destruct Hok as [Hn [[Hz Hn0]|[x Hx]]]; split; try exact Hn.
  - left. split; [exact Hz|]. split; [exact Hn0|].
    rewrite Hz, Hn0. reflexivity.
  - right. exists x. split; [exact Hx|]. rewrite Hx. reflexivity.
Qed.

(** X15.  Epochs whose folded prediction holds no finite sample play no
    part: the loop of [r_ceiling] ends in the same state, and leaves the
    generator in the same state, as the loop over the other epochs
    alone; their rasters are not read. *)
Theorem ceiling_loop_skips_epochs_without_data :
  forall (np_corrcoef : list float -> list float -> float)
         (np_mean : list float -> float) (uniform : nat -> float)
         (resp : signal) (N : Z) (folded : list (string * ndarray3))
         (st : ceiling_state) (s : nat),
    for_eachM (ceiling_body np_corrcoef np_mean uniform resp N) folded st s
    = for_eachM (ceiling_body np_corrcoef np_mean uniform resp N)
        (filter (fun kd => 0 <? count_finite3 (snd kd)) folded) st s.
Proof.
  intros f mean u resp N folded.
  induction folded as [|[k d] l IH]; intros st s; [reflexivity|].
  cbn [filter snd].
  destruct (Nat.ltb_spec 0 (count_finite3 d)) as [P|P].
  - cbn [for_eachM]. unfold bindM.
    destruct (ceiling_body f mean u resp N st (k, d) s) as [[st1|e] s1];
      [apply IH|reflexivity].
  - cbn [for_eachM]. unfold bindM.
    rewrite ceiling_body_no_data by lia. apply IH.
Qed.

Lemma corrcoef_checks_prediction_only_witness :
  nrows (as_continuous
           (continuous_signal (of_row [Sample.f 1; Sample.f 2]))) <= 1
  /\ corrcoef NumpyRef.np_corrcoef
       (mk_recording
          (continuous_signal (of_row [Sample.f 1; Sample.f 2]))
          (continuous_signal
             (of_rows 2 [[Sample.f 1; Sample.f 2]; [Sample.f 3; Sample.f 4]])))
       "pred" "resp"
     <> Raise (ValueError multi_channel_msg).
Proof.
  split; [simpl; lia|].
  apply (corrcoef_checks_prediction_only NumpyRef.np_corrcoef).
  simpl. lia.
Defined.
